(** * Aurora inference runtime: model lifecycle and request handlers

    A shallow embedding of [inference/runtime/app/main.py]: the process-wide
    state (model holder, metadata, Prometheus metrics), the loader, and the
    FastAPI handlers with their [Depends(verify_api_key)] gate.  Python
    exceptions are values of [exn]; a handler is a state-passing computation
    that either returns or raises, and [try ... except Exception] is
    [try_except]. *)

From Stdlib Require Import ZArith Floats.
From stdpp Require Import gmap strings list pretty.

(** ** Python values *)

(** What [json.load] produces, and what the handlers put in response
    bodies. [None] is both JSON [null] and the result of [dict.get] on an
    absent key. *)
#[warnings="-register-all"]
Inductive pyval : Type :=
| PyNone
| PyBool (b : bool)
| PyInt (z : Z)
| PyFloat (f : float)
| PyStr (s : string)
| PyList (l : list pyval)
| PyDict (d : gmap string pyval).

(** [d.get(k, dflt)]; [d.get(k)] is [dict_get d k PyNone]. *)
Definition dict_get (d : gmap string pyval) (k : string) (dflt : pyval) : pyval :=
  default dflt (d !! k).

(** [bool(d)] of a dict: true exactly when it has an entry. *)
Definition dict_truthy (d : gmap string pyval) : bool :=
  negb (bool_decide (size d = 0)).

(** Truthiness of an optional string ([API_KEY] is [None] when the
    variable is unset, and may be set to the empty string). *)
Definition str_truthy (o : option string) : bool :=
  match o with
  | Some s => negb (bool_decide (s = ""))
  | None => false
  end.

(** Python's [int == float]: exact, no rounding of the integer. *)
Definition float_eq_int (f : float) (n : Z) : bool :=
  match Prim2SF f with
  | S754_zero _ => (n =? 0)%Z
  | S754_finite s m e =>
      let v := if s then Z.neg m else Z.pos m in
      if (0 <=? e)%Z then (n =? v * 2 ^ e)%Z else (v =? n * 2 ^ (- e))%Z
  | _ => false
  end.

(** [n != v] for an integer [n] (a [len(...)]) and any value [v]: numbers
    compare by value ([True] is 1), anything else differs. *)
Definition int_ne (n : Z) (v : pyval) : bool :=
  match v with
  | PyInt m => negb (n =? m)%Z
  | PyBool b => negb (n =? (if b then 1 else 0))%Z
  | PyFloat f => negb (float_eq_int f n)
  | _ => true
  end.

(** A float that JSON cannot write ([NaN], [Infinity], [-Infinity]; Python's
    [json.load] reads them from [NaN], [Infinity] or an overflowing literal
    such as [1e999]) occurs somewhere in the value. *)
Fixpoint nonfinite (v : pyval) : bool :=
  match v with
  | PyFloat f => negb (is_finite f)
  | PyList l => existsb nonfinite l
  | PyDict d => map_fold (fun _ x acc => nonfinite x || acc) false d
  | _ => false
  end.

(** Every character of the string is below 128. *)
Fixpoint ascii_only (s : string) : bool :=
  match s with
  | EmptyString => true
  | String c rest => Nat.ltb (Ascii.nat_of_ascii c) 128 && ascii_only rest
  end.

(** ** Exceptions and outcomes *)

(** Both are subclasses of [Exception]: FastAPI's [HTTPException], and
    every other error the code can meet (AttributeError, an error raised
    while opening or parsing a file, pydantic's ValidationError, whatever
    the model raises). *)
Inductive exn : Type :=
| HTTPException (status_code : Z) (detail : string)
| PyError (cls msg : string).

Inductive outcome (A : Type) : Type :=
| Returns (a : A)
| Raises (e : exn).
Arguments Returns {A} a.
Arguments Raises {A} e.

(** Attribute lookup [v.get]: only a dict has it. *)
Definition as_dict (v : pyval) : outcome (gmap string pyval) :=
  match v with
  | PyDict d => Returns d
  | _ => Raises (PyError "AttributeError" "object has no attribute 'get'")
  end.

(** ** The model and the request/response schemas *)

(** [preds.tolist()] on what [model.predict] returned. *)
Record Predictions : Type := { tolist : outcome pyval }.

(** The unpickled model is opaque: all the service does with it is call
    [predict] on the request's rows. *)
Record Model : Type := { predict_method : list (list float) -> outcome Predictions }.

Record PredictionRequest : Type := { inputs : list (list float) }.

Record ModelInfo : Type := {
  name : string;
  version : string;
  algorithm : string;
  r2_score : float;
  trained_at : string;
  features : Z
}.

(** A response body: a JSON document, a [ModelInfo] object, plain text, or
    the exposition of the metrics registry (given by the values it holds). *)
Inductive Body : Type :=
| JSON (v : pyval)
| Typed (info : ModelInfo)
| Text (media_type content : string)
| Exposition (request_count : gmap (string * string) nat)
             (request_latency : gmap string nat)
             (model_load_time : option Z)
             (model_version : gmap (string * string) Z).

Record Response : Type := { status : Z; body : Body }.

(** ** Process-wide state *)

(** The globals [model] and [model_metadata] and the four Prometheus
    metrics, each labelled metric as a map from its label values to the
    child's value. [model_metadata] only ever holds a dict once a statement
    of the loader has run to its end (see [load_model_metadata]).
    The latency histogram keeps the number of observations per label (the
    observed value is wall-clock time).  [model_calls] is a ghost trace:
    the argument of every call made to [model.predict]. *)
Record State : Type := {
  model : option Model;
  model_metadata : gmap string pyval;
  REQUEST_COUNT : gmap (string * string) nat;
  REQUEST_LATENCY : gmap string nat;
  MODEL_LOAD_TIME : option Z;
  MODEL_VERSION : gmap (string * string) Z;
  model_calls : list (list (list float))
}.

(** Module-level initialisation: [model = None], [model_metadata = {}],
    fresh metrics. *)
Definition initial_state : State :=
  {| model := None; model_metadata := ∅; REQUEST_COUNT := ∅;
     REQUEST_LATENCY := ∅; MODEL_LOAD_TIME := None; MODEL_VERSION := ∅;
     model_calls := [] |}.

(** ** Environment *)

(** A file on disk, seen through the two readers the service uses:
    [open] + [json.load], and [joblib.load] (which may well unpickle
    [None]). *)
Record file : Type := {
  json_load : outcome pyval;
  joblib_load : outcome (option Model)
}.

(** Configuration read from the process environment at import time, the
    files present during a call ([os.path.exists p] is [disk !! p] being
    [Some _]), and the clock. *)
Record Env : Type := {
  API_KEY : option string;
  MODEL_PATH : string;
  MODEL_VERSION_FILE : string;
  disk : gmap string file;
  now : Z
}.

(** ** Library behaviour the code relies on *)

(** [str()] on values and exceptions, pydantic's validation of the three
    field types of [ModelInfo], and the framework's rendering of a returned
    body (for a dict, [json.dumps(..., allow_nan=False)] followed by the
    UTF-8 encoding; for a [ModelInfo], its serialisation), with the facts
    about them that every version of these libraries satisfies: [str] of a
    string is the string; a [str] field rejects [None] and accepts a
    string; a [float] field accepts a float and an [int] field an integer;
    a document holding a non-finite float is not rendered; a dict whose
    keys and values are ASCII strings is. *)
Class PyRuntime : Type := {
  str_of : pyval -> string;
  str_of_exn : exn -> string;
  validate_str : pyval -> option string;
  validate_float : pyval -> option float;
  validate_int : pyval -> option Z;
  renders_json : pyval -> bool;
  renders_model : ModelInfo -> bool;
  renders_json_nonfinite : forall v, nonfinite v = true -> renders_json v = false;
  renders_json_ascii_strings : forall d : gmap string pyval,
    (forall k v, d !! k = Some v ->
       ascii_only k = true /\ exists s, v = PyStr s /\ ascii_only s = true) ->
    renders_json (PyDict d) = true;
  str_of_PyStr : forall s, str_of (PyStr s) = s;
  validate_str_None : validate_str PyNone = None;
  validate_str_PyStr : forall s, validate_str (PyStr s) = Some s;
  validate_float_PyFloat : forall f, validate_float (PyFloat f) = Some f;
  validate_int_PyInt : forall z, validate_int (PyInt z) = Some z
}.

(** ** Computations over the state that may raise *)

Definition Py (A : Type) : Type := State -> outcome A * State.

#[global] Instance Py_ret : MRet Py := fun A a st => (Returns a, st).

(** Sequencing: the state reached by a statement that raises is kept (an
    exception undoes nothing). *)
#[global] Instance Py_bind : MBind Py := fun A B k m st =>
  match m st with
  | (Returns a, st') => k a st'
  | (Raises e, st') => (Raises e, st')
  end.

Definition raise {A : Type} (e : exn) : Py A := fun st => (Raises e, st).

Definition lift {A : Type} (o : outcome A) : Py A := fun st => (o, st).

Definition gets {A : Type} (f : State -> A) : Py A := fun st => (Returns (f st), st).

Definition modify (f : State -> State) : Py unit := fun st => (Returns tt, f st).

(** [try: body / except Exception as e: handler e]. Every [exn] is an
    [Exception], [HTTPException] included, so the handler sees them all. *)
Definition try_except {A : Type} (body : Py A) (handler : exn -> Py A) : Py A :=
  fun st =>
    match body st with
    | (Returns a, st') => (Returns a, st')
    | (Raises e, st') => handler e st'
    end.

(** Assignments to the globals and updates of the metrics. *)
Definition set_model (m : option Model) (st : State) : State :=
  {| model := m; model_metadata := model_metadata st;
     REQUEST_COUNT := REQUEST_COUNT st; REQUEST_LATENCY := REQUEST_LATENCY st;
     MODEL_LOAD_TIME := MODEL_LOAD_TIME st; MODEL_VERSION := MODEL_VERSION st;
     model_calls := model_calls st |}.

Definition set_model_metadata (d : gmap string pyval) (st : State) : State :=
  {| model := model st; model_metadata := d;
     REQUEST_COUNT := REQUEST_COUNT st; REQUEST_LATENCY := REQUEST_LATENCY st;
     MODEL_LOAD_TIME := MODEL_LOAD_TIME st; MODEL_VERSION := MODEL_VERSION st;
     model_calls := model_calls st |}.

Definition set_REQUEST_COUNT (c : gmap (string * string) nat) (st : State) : State :=
  {| model := model st; model_metadata := model_metadata st;
     REQUEST_COUNT := c; REQUEST_LATENCY := REQUEST_LATENCY st;
     MODEL_LOAD_TIME := MODEL_LOAD_TIME st; MODEL_VERSION := MODEL_VERSION st;
     model_calls := model_calls st |}.

Definition set_REQUEST_LATENCY (h : gmap string nat) (st : State) : State :=
  {| model := model st; model_metadata := model_metadata st;
     REQUEST_COUNT := REQUEST_COUNT st; REQUEST_LATENCY := h;
     MODEL_LOAD_TIME := MODEL_LOAD_TIME st; MODEL_VERSION := MODEL_VERSION st;
     model_calls := model_calls st |}.

Definition set_MODEL_LOAD_TIME (t : option Z) (st : State) : State :=
  {| model := model st; model_metadata := model_metadata st;
     REQUEST_COUNT := REQUEST_COUNT st; REQUEST_LATENCY := REQUEST_LATENCY st;
     MODEL_LOAD_TIME := t; MODEL_VERSION := MODEL_VERSION st;
     model_calls := model_calls st |}.

Definition set_MODEL_VERSION (g : gmap (string * string) Z) (st : State) : State :=
  {| model := model st; model_metadata := model_metadata st;
     REQUEST_COUNT := REQUEST_COUNT st; REQUEST_LATENCY := REQUEST_LATENCY st;
     MODEL_LOAD_TIME := MODEL_LOAD_TIME st; MODEL_VERSION := g;
     model_calls := model_calls st |}.

Definition log_model_call (rows : list (list float)) (st : State) : State :=
  {| model := model st; model_metadata := model_metadata st;
     REQUEST_COUNT := REQUEST_COUNT st; REQUEST_LATENCY := REQUEST_LATENCY st;
     MODEL_LOAD_TIME := MODEL_LOAD_TIME st; MODEL_VERSION := MODEL_VERSION st;
     model_calls := model_calls st ++ [rows] |}.

(** [Counter.labels(...).inc()] and [Histogram.labels(...).observe(...)]:
    a child that was never touched counts from zero. *)
Definition counter_inc {K : Type} `{Countable K} (k : K) (c : gmap K nat) : gmap K nat :=
  <[k := S (default 0 (c !! k))]> c.

(** The value a scrape reads for a child. *)
Definition counter_value {K : Type} `{Countable K} (c : gmap K nat) (k : K) : nat :=
  default 0 (c !! k).

Section Service.
Context `{PyRuntime}.

(** The label value [model_metadata.get('version', 'unknown')], as the
    client library stores it. *)
Definition version_label (st : State) : string :=
  str_of (dict_get (model_metadata st) "version" (PyStr "unknown")).

Definition name_label (st : State) : string :=
  str_of (dict_get (model_metadata st) "model_name" (PyStr "unknown")).

(** [model_metadata.get('feature_count', 8)] *)
Definition expected_features (st : State) : pyval :=
  dict_get (model_metadata st) "feature_count" (PyInt 8).

(** [REQUEST_COUNT.labels(status=..., model_version=...).inc()] *)
Definition count_request (status_label : string) : Py unit :=
  modify (fun st =>
    set_REQUEST_COUNT (counter_inc (status_label, version_label st) (REQUEST_COUNT st)) st).

(** [REQUEST_LATENCY.labels(model_version=...).observe(time.time() - start)] *)
Definition observe_latency : Py unit :=
  modify (fun st =>
    set_REQUEST_LATENCY (counter_inc (version_label st) (REQUEST_LATENCY st)) st).

(** [MODEL_VERSION.labels(model_name=..., version=...).set(v)] *)
Definition set_version_gauge (v : Z) : Py unit :=
  modify (fun st =>
    set_MODEL_VERSION (<[(name_label st, version_label st) := v]> (MODEL_VERSION st)) st).

(** ** Security *)

(** [verify_api_key]: the dependency of the three guarded routes. [key] is
    the query parameter, [None] when the request carries none. *)
Definition verify_api_key (env : Env) (key : option string) : outcome unit :=
  if str_truthy (API_KEY env) && negb (bool_decide (key = API_KEY env))
  then Raises (HTTPException 401 "Invalid API key")
  else Returns tt.

(** ** Model loader *)

(** [load_model_metadata]. Inside the [try], [model_metadata] is bound to
    whatever [json.load] returned and the logging line then calls
    [model_metadata.get] twice: on a document that is not an object this
    raises AttributeError, and the handler rebinds the global to the empty
    dict. So the global holds the parsed dict, or the empty dict after any
    exception; the [else] branch only logs a warning. *)
Definition load_model_metadata (env : Env) : Py unit :=
  match disk env !! MODEL_VERSION_FILE env with
  | Some f =>
      try_except
        (loaded ← lift (json_load f);
         d ← lift (as_dict loaded);
         modify (set_model_metadata d))
        (fun _ => modify (set_model_metadata ∅))
  | None => mret tt
  end.

(** [load_model], the startup hook, also called by the reload route. *)
Definition load_model (env : Env) : Py unit :=
  load_model_metadata env;;
  match disk env !! MODEL_PATH env with
  | None => set_version_gauge 0
  | Some f =>
      try_except
        (loaded ← lift (joblib_load f);
         modify (set_model loaded);;
         modify (set_MODEL_LOAD_TIME (Some (now env)));;
         set_version_gauge 1)
        (fun _ => set_version_gauge 0)
  end.

(** ** Routes *)

(** A Python dict literal with string keys. *)
Definition dict_of (l : list (string * pyval)) : gmap string pyval := list_to_map l.

(** [GET /health]. [status.update(...)] overwrites or adds the three keys. *)
Definition health (env : Env) : Py Body :=
  loaded ← gets model;
  md ← gets model_metadata;
  let status :=
    dict_of [("status", PyStr (if bool_decide (is_Some loaded) then "ok" else "degraded"));
             ("model_loaded", PyBool (bool_decide (is_Some loaded)));
             ("model_path", PyStr (MODEL_PATH env));
             ("metadata_loaded", PyBool (dict_truthy md))] in
  let status :=
    if dict_truthy md then
      <["r2_score" := dict_get md "r2_score" PyNone]>
        (<["model_version" := dict_get md "version" PyNone]>
           (<["model_name" := dict_get md "model_name" PyNone]> status))
    else status in
  mret (JSON (PyDict status)).

(** Construction of the pydantic model [ModelInfo]: every field is
    validated against its annotation, and a field that fails makes the
    constructor raise ValidationError. *)
Definition ModelInfo_new (name_ version_ algorithm_ r2_score_ trained_at_ features_ : pyval)
  : outcome ModelInfo :=
  match validate_str name_, validate_str version_, validate_str algorithm_,
        validate_float r2_score_, validate_str trained_at_, validate_int features_ with
  | Some n, Some v, Some a, Some r, Some t, Some f =>
      Returns {| name := n; version := v; algorithm := a; r2_score := r;
                 trained_at := t; features := f |}
  | _, _, _, _, _, _ => Raises (PyError "ValidationError" "ModelInfo")
  end.

(** [GET /model/info], the handler body. *)
Definition model_info : Py Body :=
  md ← gets model_metadata;
  if negb (dict_truthy md) then
    raise (HTTPException 404 "Model metadata not available")
  else
    info ← lift (ModelInfo_new (dict_get md "model_name" PyNone)
                               (dict_get md "version" PyNone)
                               (dict_get md "algorithm" PyNone)
                               (dict_get md "r2_score" (PyFloat 0))
                               (dict_get md "trained_at" PyNone)
                               (dict_get md "feature_count" (PyInt 0)));
    mret (Typed info).

(** The validation loop [for i, inp in enumerate(req.inputs)], from index
    [i] on. *)
Fixpoint check_rows (expected_features : pyval) (i : nat) (rows : list (list float)) : Py unit :=
  match rows with
  | [] => mret tt
  | inp :: rest =>
      if int_ne (Z.of_nat (length inp)) expected_features then
        raise (HTTPException 400
                 ("Input " +:+ str_of (PyInt (Z.of_nat i)) +:+ " has "
                  +:+ str_of (PyInt (Z.of_nat (length inp)))
                  +:+ " features, expected " +:+ str_of expected_features))
      else check_rows expected_features (S i) rest
  end.

(** [model.predict(req.inputs)], recorded in the ghost trace. *)
Definition call_predict (m : Model) (rows : list (list float)) : Py Predictions :=
  modify (log_model_call rows);;
  lift (predict_method m rows).

(** [POST /predict], the handler body. *)
Definition predict (req : PredictionRequest) : Py Body :=
  loaded ← gets model;
  match loaded with
  | None =>
      count_request "error";;
      raise (HTTPException 503 "Model not loaded")
  | Some m =>
      try_except
        ((if bool_decide (inputs req = []) then
            raise (HTTPException 400 "Empty input")
          else mret tt);;
         expected ← gets expected_features;
         check_rows expected 0 (inputs req);;
         preds ← call_predict m (inputs req);
         count_request "success";;
         observe_latency;;
         out ← lift (tolist preds);
         mret (JSON (PyDict (dict_of [("predictions", out)]))))
        (fun e =>
           count_request "error";;
           raise (HTTPException 500 (str_of_exn e)))
  end.

(** [GET /metrics]. *)
Definition metrics : Py Body :=
  st ← gets id;
  mret (Exposition (REQUEST_COUNT st) (REQUEST_LATENCY st)
                   (MODEL_LOAD_TIME st) (MODEL_VERSION st)).

(** [POST /model/reload], the handler body. *)
Definition reload_model (env : Env) : Py Body :=
  old_model ← gets model;
  modify (set_model None);;
  try_except
    (load_model env;;
     loaded ← gets model;
     if bool_decide (is_Some loaded) then
       mret (JSON (PyDict (dict_of [("status", PyStr "reloaded");
                                    ("message", PyStr "Model reloaded successfully")])))
     else
       modify (set_model old_model);;
       raise (HTTPException 500 "Failed to reload model"))
    (fun e =>
       modify (set_model old_model);;
       raise (HTTPException 500 (str_of_exn e))).

(** ** The application *)

(** [Depends(verify_api_key)]: the dependency runs first, and the handler
    body only if it returned. *)
Definition guarded {A : Type} (env : Env) (key : option string) (handler : Py A) : Py A :=
  lift (verify_api_key env key);; handler.

(** The response FastAPI sends for an [HTTPException]. *)
Definition error_response (code : Z) (detail : string) : Response :=
  {| status := code; body := JSON (PyDict (dict_of [("detail", PyStr detail)])) |}.

(** The response to an exception no handler is registered for. *)
Definition internal_server_error : Response :=
  {| status := 500; body := Text "text/plain" "Internal Server Error" |}.

(** Whether the framework can render a returned body: a dict goes through
    the JSON encoder, a [ModelInfo] through its serialiser; plain text and
    the metrics exposition are sent as they are. *)
Definition body_renders (b : Body) : bool :=
  match b with
  | JSON v => renders_json v
  | Typed info => renders_model info
  | Text _ _ | Exposition _ _ _ _ => true
  end.

(** What the framework sends for a handler's outcome: 200 with the
    returned body when it can render it, and 500 when the rendering fails
    (that happens after the handler has returned, outside its [except]);
    an [HTTPException]'s status code with its detail; and 500 for any
    other exception. *)
Definition respond (o : outcome Body) : Response :=
  match o with
  | Returns b => if body_renders b then {| status := 200; body := b |}
                 else internal_server_error
  | Raises (HTTPException code detail) => error_response code detail
  | Raises (PyError _ _) => internal_server_error
  end.

(** A request to one of the five routes, already parsed and validated by
    the framework against the handler's signature ([key] is the query
    parameter read by [verify_api_key]). *)
Inductive Request : Type :=
| GET_health
| GET_model_info (key : option string)
| POST_predict (key : option string) (req : PredictionRequest)
| GET_metrics
| POST_model_reload (key : option string).

(** The key a route's [Depends(verify_api_key)] receives; [None] for the
    two routes declared without the dependency. *)
Definition dependency (r : Request) : option (option string) :=
  match r with
  | GET_health | GET_metrics => None
  | GET_model_info key | POST_predict key _ | POST_model_reload key => Some key
  end.

Definition handler (env : Env) (r : Request) : Py Body :=
  match r with
  | GET_health => health env
  | GET_model_info _ => model_info
  | POST_predict _ req => predict req
  | GET_metrics => metrics
  | POST_model_reload _ => reload_model env
  end.

Definition route (env : Env) (r : Request) : Py Body :=
  match dependency r with
  | Some key => guarded env key (handler env r)
  | None => handler env r
  end.

(** One request served in state [st]: the response and the state left. *)
Definition serve (env : Env) (r : Request) (st : State) : Response * State :=
  let (o, st') := route env r st in (respond o, st').

(** The state after the startup hook. *)
Definition startup (env : Env) : State := snd (load_model env initial_state).

(** ** Vocabulary of the statements *)

(** [API_KEY] holds a non-empty secret: the only case in which
    [verify_api_key] compares anything (it tests the truthiness of
    [API_KEY], so an empty value is no secret). *)
Definition secret_configured (env : Env) (secret : string) : Prop :=
  API_KEY env = Some secret ∧ secret ≠ "".

(** [API_KEY] is unset or empty. *)
Definition no_secret_configured (env : Env) : Prop :=
  API_KEY env = None ∨ API_KEY env = Some "".


(** The four fields [ModelInfo] annotates with [str], by their key in the
    metadata file. *)
Definition string_fields : list string :=
  ["model_name"; "version"; "algorithm"; "trained_at"].

(** Every row has the expected number of features, by Python's [!=]. *)
Definition rows_accepted (expected : pyval) (rows : list (list float)) : bool :=
  forallb (fun inp => negb (int_ne (Z.of_nat (length inp)) expected)) rows.

(** The request is one the validation step of [predict] refuses: no row at
    all, or a row whose length differs from the expected feature count. *)
Definition invalid_inputs (st : State) (req : PredictionRequest) : Prop :=
  inputs req = [] ∨
  ∃ inp, inp ∈ inputs req ∧
         int_ne (Z.of_nat (length inp)) (expected_features st) = true.

(** The child of [REQUEST_COUNT] for failed requests under the version
    label current in [st]. *)
Definition error_child (st : State) : string * string := ("error", version_label st).

(** The model file is missing, or [joblib.load] raises on it. *)
Definition model_file_unloadable (env : Env) : Prop :=
  disk env !! MODEL_PATH env = None ∨
  ∃ f e, disk env !! MODEL_PATH env = Some f ∧ joblib_load f = Raises e.

(** The metadata file is there but does not yield a dict: reading or
    parsing raises, or the document is not a JSON object. *)
Definition metadata_file_unparsable (env : Env) : Prop :=
  ∃ f, disk env !! MODEL_VERSION_FILE env = Some f ∧
       ∀ d, json_load f ≠ Returns (PyDict d).

(** What a call of the metadata loader leaves in [model_metadata]. *)
Definition metadata_after_load (env : Env) (st : State) : gmap string pyval :=
  model_metadata (snd (load_model_metadata env st)).

End Service.

(** ** A concrete runtime *)

(** An instance of the library interface on which the handlers run by
    computation. [str] follows CPython on [None], booleans, integers and
    strings (floats and containers get a fixed rendering); [str] of an
    [HTTPException] is ["<status>: <detail>"] as in current Starlette; the
    validators accept a value of exactly the annotated type; a document
    is rendered unless it holds a non-finite float. *)
Definition strict_str_of (v : pyval) : string :=
  match v with
  | PyNone => "None"
  | PyBool true => "True"
  | PyBool false => "False"
  | PyInt z => pretty z
  | PyStr s => s
  | PyFloat _ => "<float>"
  | PyList _ => "<list>"
  | PyDict _ => "<dict>"
  end.

Definition strict_str_of_exn (e : exn) : string :=
  match e with
  | HTTPException code detail => pretty code +:+ ": " +:+ detail
  | PyError _ msg => msg
  end.

(** A dict holds a non-finite float exactly when one of its values does. *)
Lemma nonfinite_dict (d : gmap string pyval) :
  nonfinite (PyDict d) = true <-> exists k v, d !! k = Some v /\ nonfinite v = true.
Proof.
  simpl. split.
  - apply (map_fold_weak_ind
             (fun r (m : gmap string pyval) =>
                r = true -> exists k v, m !! k = Some v /\ nonfinite v = true)).
    + discriminate.
    + intros k v m r Hfresh IH Hr. apply orb_true_iff in Hr as [Hv | Hr].
      * exists k, v. split; [apply lookup_insert_eq | done].
      * destruct (IH Hr) as (k' & v' & Hk' & Hv').
        exists k', v'. split; [|done].
        rewrite lookup_insert_ne; [done|]. intros ->. congruence.
  - intros (k & v & Hk & Hv).
    rewrite <- (insert_delete_id d k v Hk).
    rewrite map_fold_insert_L.
    + by rewrite Hv.
    + intros. by rewrite !orb_assoc, (orb_comm (nonfinite z1)).
    + apply lookup_delete_eq.
Qed.

#[global, refine] Instance strict_runtime : PyRuntime := {|
  str_of := strict_str_of;
  str_of_exn := strict_str_of_exn;
  validate_str := fun v => match v with PyStr s => Some s | _ => None end;
  validate_float := fun v => match v with PyFloat f => Some f | _ => None end;
  validate_int := fun v => match v with PyInt z => Some z | _ => None end;
  renders_json := fun v => negb (nonfinite v);
  renders_model := fun info => is_finite (r2_score info)
|}.
Proof.
  all: try reflexivity.
  - intros v Hv. by rewrite Hv.
  - intros d Hd. apply negb_true_iff, not_true_is_false. intros Hnf.
    apply nonfinite_dict in Hnf as (k & v & Hk & Hv).
    destruct (Hd k v Hk) as (_ & s & -> & _). discriminate.
Defined.

(** ** Sample data *)

(** A model that answers [y] for every row. *)
Definition constant_model (y : float) : Model :=
  {| predict_method := fun rows =>
       Returns {| tolist := Returns (PyList (map (fun _ => PyFloat y) rows)) |} |}.

Definition row8 : list float := [1; 2; 3; 4; 5; 6; 7; 8]%float.

Definition row7 : list float := [1; 2; 3; 4; 5; 6; 7]%float.

(** Metadata of the California housing model, as in the documented
    example: no [algorithm], [r2_score] or [trained_at]. *)
Definition housing_metadata : gmap string pyval :=
  dict_of [("model_name", PyStr "california-housing"); ("version", PyStr "1.0");
           ("feature_count", PyInt 8)].

(** No API key configured, nothing on disk. *)
Definition bare_env : Env :=
  {| API_KEY := None; MODEL_PATH := "/models/model.pkl";
     MODEL_VERSION_FILE := "/models/metadata.json"; disk := ∅; now := 1000 |}.

(** [API_KEY="secret"], nothing on disk. *)
Definition secret_env : Env :=
  {| API_KEY := Some "secret"; MODEL_PATH := "/models/model.pkl";
     MODEL_VERSION_FILE := "/models/metadata.json"; disk := ∅; now := 1000 |}.

(** The model file has been deleted and the metadata file rewritten for a
    next version with nine features. *)
Definition next_metadata : gmap string pyval :=
  dict_of [("model_name", PyStr "california-housing"); ("version", PyStr "2.0");
           ("feature_count", PyInt 9)].

Definition republished_env : Env :=
  {| API_KEY := None; MODEL_PATH := "/models/model.pkl";
     MODEL_VERSION_FILE := "/models/metadata.json";
     disk := {[ "/models/metadata.json" :=
                  {| json_load := Returns (PyDict next_metadata);
                     joblib_load := Raises (PyError "UnpicklingError" "invalid load key") |} ]};
     now := 2000 |}.

(** A state with a model and the example metadata loaded. *)
Definition serving_state : State :=
  set_model (Some (constant_model 1.5)) (set_model_metadata housing_metadata initial_state).

(** ** Further vocabulary and sample data *)

(** Python numbers: the values an integer can be equal to. *)
Definition is_number (v : pyval) : bool :=
  match v with
  | PyInt _ | PyBool _ | PyFloat _ => true
  | _ => false
  end.


(** The child of [MODEL_VERSION] for the labels of the metadata held in
    [st]. *)
Definition version_child `{PyRuntime} (st : State) : string * string :=
  (name_label st, version_label st).

(** Requests served one after the other, each against the configuration
    and files of its moment; the state left by the last one. *)
Fixpoint serve_all `{PyRuntime} (reqs : list (Env * Request)) (st : State) : State :=
  match reqs with
  | [] => st
  | (env, r) :: rest => serve_all rest (snd (serve env r st))
  end.

(** The rows a request carries: those of a prediction request. *)
Definition request_rows (r : Request) : list (list float) :=
  match r with
  | POST_predict _ req => inputs req
  | _ => []
  end.

(** The request is a [POST /predict] that gets as far as the model: the
    key check lets it through, a model is loaded, and its rows pass the
    validation. *)
Definition reaches_model `{PyRuntime} (env : Env) (r : Request) (st : State) : Prop :=
  ∃ key req, r = POST_predict key req ∧
             verify_api_key env key = Returns tt ∧
             is_Some (model st) ∧ inputs req ≠ [] ∧
             rows_accepted (expected_features st) (inputs req) = true.

(** The same configuration and files, read at another moment. *)
Definition at_time (t : Z) (env : Env) : Env :=
  {| API_KEY := API_KEY env; MODEL_PATH := MODEL_PATH env;
     MODEL_VERSION_FILE := MODEL_VERSION_FILE env; disk := disk env; now := t |}.

Definition row9 : list float := [1; 2; 3; 4; 5; 6; 7; 8; 9]%float.

(** A model whose [predict] raises, and one whose result has no usable
    [tolist]. *)
Definition failing_model : Model :=
  {| predict_method := fun _ => Raises (PyError "ValueError" "X has 8 features") |}.

Definition listless_model : Model :=
  {| predict_method := fun _ =>
       Returns {| tolist := Raises (PyError "AttributeError" "no attribute 'tolist'") |} |}.

(** A published model: metadata and pickle both on disk. *)
Definition published (md : gmap string pyval) (pickled : option Model) (t : Z) : Env :=
  {| API_KEY := None; MODEL_PATH := "/models/model.pkl";
     MODEL_VERSION_FILE := "/models/metadata.json";
     disk := {[ "/models/metadata.json" :=
                  {| json_load := Returns (PyDict md);
                     joblib_load := Raises (PyError "UnpicklingError" "invalid load key") |};
                "/models/model.pkl" :=
                  {| json_load := Raises (PyError "UnicodeDecodeError" "invalid start byte");
                     joblib_load := Returns pickled |} ]};
     now := t |}.

Definition first_release : Env := published housing_metadata (Some (constant_model 1.5)) 1000.

Definition second_release : Env := published next_metadata (Some (constant_model 2.5)) 2000.

(** The pickle holds [None]. *)
Definition hollow_release : Env := published next_metadata None 3000.

(** A model that answers NaN, and a release whose metadata file gives NaN
    as score. *)
Definition nan_model : Model := constant_model nan.



(** Metadata whose [feature_count] was written as a string. *)
Definition quoted_metadata : gmap string pyval :=
  dict_of [("model_name", PyStr "california-housing"); ("version", PyStr "1.0");
           ("feature_count", PyStr "8")].

(** Metadata with every field of [ModelInfo] but the two numeric ones. *)
Definition described_metadata : gmap string pyval :=
  dict_of [("model_name", PyStr "california-housing"); ("version", PyStr "1.0");
           ("algorithm", PyStr "RandomForest"); ("trained_at", PyStr "2024-01-01")].

(** * Properties *)

(** Unfolds the monadic plumbing so that a handler reads as a nest of
    matches on its state. *)
Ltac py_unfold :=
  cbv [mbind mret Py_bind Py_ret raise lift gets modify try_except
       count_request observe_latency set_version_gauge call_predict guarded] in *.

Lemma State_eta (st : State) :
  {| model := model st; model_metadata := model_metadata st;
     REQUEST_COUNT := REQUEST_COUNT st; REQUEST_LATENCY := REQUEST_LATENCY st;
     MODEL_LOAD_TIME := MODEL_LOAD_TIME st; MODEL_VERSION := MODEL_VERSION st;
     model_calls := model_calls st |} = st.
Proof. by destruct st. Qed.

Section CounterFacts.
Context {K : Type} `{Countable K}.

Lemma counter_value_inc (k : K) (c : gmap K nat) :
  counter_value (counter_inc k c) k = S (counter_value c k).
Proof. unfold counter_value, counter_inc. by rewrite lookup_insert_eq. Qed.

Lemma counter_value_inc_ne (k k' : K) (c : gmap K nat) :
  k ≠ k' -> counter_value (counter_inc k c) k' = counter_value c k'.
Proof. intros Hne. unfold counter_value, counter_inc. by rewrite lookup_insert_ne. Qed.

End CounterFacts.

Lemma dict_truthy_empty (d : gmap string pyval) : dict_truthy d = false <-> d = ∅.
Proof.
  unfold dict_truthy. rewrite negb_false_iff, bool_decide_eq_true.
  apply map_size_empty_iff.
Qed.

Lemma dict_truthy_nonempty (d : gmap string pyval) : dict_truthy d = true <-> d ≠ ∅.
Proof.
  rewrite <- dict_truthy_empty. destruct (dict_truthy d); split; congruence.
Qed.

Section Authentication.
Context `{PyRuntime}.

Lemma verify_api_key_unconfigured env key :
  str_truthy (API_KEY env) = false -> verify_api_key env key = Returns tt.
Proof. intros Hcfg. unfold verify_api_key. by rewrite Hcfg. Qed.

Lemma verify_api_key_match env secret :
  API_KEY env = Some secret -> verify_api_key env (Some secret) = Returns tt.
Proof.
  intros Hcfg. unfold verify_api_key. rewrite Hcfg.
  rewrite bool_decide_eq_true_2 by done. by rewrite andb_false_r.
Qed.

Lemma verify_api_key_mismatch env secret key :
  secret_configured env secret -> key ≠ Some secret ->
  verify_api_key env key = Raises (HTTPException 401 "Invalid API key").
Proof.
  intros [Hcfg Hne] Hkey. unfold verify_api_key. rewrite Hcfg. simpl.
  rewrite (bool_decide_eq_false_2 (secret = "")) by done.
  by rewrite (bool_decide_eq_false_2 (key = Some secret)) by done.
Qed.

(** The dependency has two outcomes only. *)
Lemma verify_api_key_cases env key :
  verify_api_key env key = Returns tt ∨
  verify_api_key env key = Raises (HTTPException 401 "Invalid API key").
Proof. unfold verify_api_key. destruct (_ && _); auto. Qed.

Lemma guarded_pass {A} env key (h : Py A) st :
  verify_api_key env key = Returns tt -> guarded env key h st = h st.
Proof. intros Hok. py_unfold. by rewrite Hok. Qed.

Lemma guarded_reject {A} env key (h : Py A) st e :
  verify_api_key env key = Raises e -> guarded env key h st = (Raises e, st).
Proof. intros Hko. py_unfold. by rewrite Hko. Qed.

End Authentication.

Section Prediction.
Context `{PyRuntime}.

(** The validation loop never touches the state; it returns exactly on
    the accepted lists and raises a 400 otherwise. *)
Lemma check_rows_cases expected i rows st :
  (rows_accepted expected rows = true ∧
   check_rows expected i rows st = (Returns tt, st)) ∨
  (rows_accepted expected rows = false ∧
   ∃ detail, check_rows expected i rows st = (Raises (HTTPException 400 detail), st)).
Proof.
  revert i. induction rows as [|inp rows IH]; intros i; simpl.
  - left. split; reflexivity.
  - destruct (int_ne (Z.of_nat (length inp)) expected) eqn:Hne; simpl.
    + right. split; [reflexivity|]. eexists. reflexivity.
    + apply IH.
Qed.

Lemma rows_accepted_false expected rows :
  (∃ inp, inp ∈ rows ∧ int_ne (Z.of_nat (length inp)) expected = true) ->
  rows_accepted expected rows = false.
Proof.
  intros (inp & Hin & Hne). unfold rows_accepted.
  apply not_true_is_false. intros Hall.
  rewrite forallb_forall in Hall.
  apply list_elem_of_In in Hin. specialize (Hall inp Hin).
  rewrite Hne in Hall. discriminate.
Qed.

(** [predict] without a model: one increment of the error child, then
    the 503. Nothing else of the state moves. *)
Lemma predict_unloaded req st :
  model st = None ->
  predict req st =
    (Raises (HTTPException 503 "Model not loaded"),
     set_REQUEST_COUNT (counter_inc (error_child st) (REQUEST_COUNT st)) st).
Proof. intros Hm. unfold predict. py_unfold. rewrite Hm. reflexivity. Qed.

(** [predict] on a refused request: the 400 raised by the validation step
    is caught by the handler's own [except Exception], counted, and
    raised again as a 500. The model is not called. *)
Lemma predict_invalid req st m :
  model st = Some m -> invalid_inputs st req ->
  ∃ detail,
    predict req st =
      (Raises (HTTPException 500 (str_of_exn (HTTPException 400 detail))),
       set_REQUEST_COUNT (counter_inc (error_child st) (REQUEST_COUNT st)) st).
Proof.
  intros Hm Hbad. unfold predict. py_unfold. rewrite Hm.
  destruct (bool_decide (inputs req = [])) eqn:Hempty.
  - eexists. reflexivity.
  - destruct Hbad as [Hnil | Hrow].
    + apply bool_decide_eq_false in Hempty. contradiction.
    + apply (rows_accepted_false (expected_features st)) in Hrow.
      destruct (check_rows_cases (expected_features st) 0 (inputs req) st)
        as [[Hacc _] | [_ [detail Hchk]]]; [congruence|].
      rewrite Hchk. eexists. reflexivity.
Qed.

(** [predict] on an accepted request whose model call and [tolist]
    succeed: the model is called once on the rows, the success child and
    the latency histogram move, and the predictions are returned. *)
Lemma predict_accepted req st m preds out :
  model st = Some m -> inputs req ≠ [] ->
  rows_accepted (expected_features st) (inputs req) = true ->
  predict_method m (inputs req) = Returns preds -> tolist preds = Returns out ->
  predict req st =
    (Returns (JSON (PyDict (dict_of [("predictions", out)]))),
     set_REQUEST_LATENCY
       (counter_inc (version_label st) (REQUEST_LATENCY st))
       (set_REQUEST_COUNT
          (counter_inc ("success", version_label st) (REQUEST_COUNT st))
          (log_model_call (inputs req) st))).
Proof.
  intros Hm Hne Hacc Hpred Hout. unfold predict. py_unfold. rewrite Hm.
  rewrite bool_decide_eq_false_2 by done.
  destruct (check_rows_cases (expected_features st) 0 (inputs req) st)
    as [[_ Hchk] | [Hrej _]]; [|congruence].
  rewrite Hchk, Hpred, Hout. reflexivity.
Qed.

(** Whenever [predict] raises, the exception is a 503 or a 500, the error
    child under the current version label has gone up by one and no other
    error child has moved. *)
Lemma predict_failure req st e st' :
  predict req st = (Raises e, st') ->
  (∃ detail, e = HTTPException 503 detail ∨ e = HTTPException 500 detail) ∧
  counter_value (REQUEST_COUNT st') (error_child st)
    = S (counter_value (REQUEST_COUNT st) (error_child st)) ∧
  (∀ v, v ≠ version_label st ->
        counter_value (REQUEST_COUNT st') ("error", v)
        = counter_value (REQUEST_COUNT st) ("error", v)) ∧
  model st' = model st ∧ model_metadata st' = model_metadata st.
Proof.
  unfold predict. py_unfold. destruct (model st) as [m|] eqn:Hm.
  - destruct (bool_decide (inputs req = [])).
    + intros [= <- <-]. simpl. rewrite counter_value_inc.
      split; [eexists; eauto|]. split; [done|]. split; [|done].
      intros v Hv. apply counter_value_inc_ne. unfold error_child. congruence.
    + destruct (check_rows_cases (expected_features st) 0 (inputs req) st)
        as [[_ Hchk] | [_ [detail Hchk]]]; rewrite Hchk.
      * destruct (predict_method m (inputs req)) as [preds|e0].
        -- destruct (tolist preds) as [out|e1]; [discriminate|].
           intros [= <- <-]. simpl.
           split; [eexists; eauto|].
           unfold error_child, version_label. simpl.
           rewrite counter_value_inc.
           split; [by rewrite counter_value_inc_ne|]. split; [|done].
           intros v Hv. rewrite !counter_value_inc_ne; [done|congruence..].
        -- intros [= <- <-]. simpl. unfold error_child, version_label. simpl.
           rewrite counter_value_inc.
           split; [eexists; eauto|]. split; [done|]. split; [|done].
           intros v Hv. apply counter_value_inc_ne. congruence.
      * intros [= <- <-]. simpl. rewrite counter_value_inc.
        split; [eexists; eauto|]. split; [done|]. split; [|done].
        intros v Hv. apply counter_value_inc_ne. unfold error_child. congruence.
  - intros [= <- <-]. simpl. rewrite counter_value_inc.
    split; [eexists; eauto|]. split; [done|]. split; [|done].
    intros v Hv. apply counter_value_inc_ne. unfold error_child. congruence.
Qed.


End Prediction.

Section Loading.
Context `{PyRuntime}.

(** The metadata loader always returns, and writes [model_metadata] only. *)
Lemma load_model_metadata_frame env st :
  load_model_metadata env st =
    (Returns tt, set_model_metadata (metadata_after_load env st) st).
Proof.
  unfold metadata_after_load, load_model_metadata. py_unfold.
  destruct (disk env !! MODEL_VERSION_FILE env) as [f|].
  - destruct (json_load f) as [v|e]; [|reflexivity].
    destruct v; reflexivity.
  - simpl. unfold set_model_metadata. by rewrite State_eta.
Qed.

Lemma load_model_metadata_missing env st :
  disk env !! MODEL_VERSION_FILE env = None ->
  load_model_metadata env st = (Returns tt, st).
Proof. intros Hno. unfold load_model_metadata. by rewrite Hno. Qed.

Lemma load_model_metadata_parsed env st f d :
  disk env !! MODEL_VERSION_FILE env = Some f -> json_load f = Returns (PyDict d) ->
  load_model_metadata env st = (Returns tt, set_model_metadata d st).
Proof.
  intros Hf Hd. unfold load_model_metadata. py_unfold. by rewrite Hf, Hd.
Qed.

Lemma load_model_metadata_unparsable env st :
  metadata_file_unparsable env ->
  load_model_metadata env st = (Returns tt, set_model_metadata ∅ st).
Proof.
  intros (f & Hf & Hbad). unfold load_model_metadata. py_unfold. rewrite Hf.
  destruct (json_load f) as [v|e]; [|reflexivity].
  destruct v; try reflexivity. by destruct (Hbad d).
Qed.

Lemma metadata_after_load_set_model env m st :
  metadata_after_load env (set_model m st) = metadata_after_load env st.
Proof.
  unfold metadata_after_load, load_model_metadata. py_unfold.
  destruct (disk env !! MODEL_VERSION_FILE env) as [f|]; [|reflexivity].
  destruct (json_load f) as [v|e]; [|reflexivity].
  destruct v; reflexivity.
Qed.

(** The model a call of [load_model] leaves in the holder: the unpickled
    object when the file is there and [joblib.load] returns, and the
    holder's previous content otherwise. *)
Lemma load_model_frame env st :
  ∃ st',
    load_model env st = (Returns tt, st') ∧
    model_metadata st' = metadata_after_load env st ∧
    REQUEST_COUNT st' = REQUEST_COUNT st ∧
    model_calls st' = model_calls st ∧
    model st' =
      match disk env !! MODEL_PATH env with
      | Some f => match joblib_load f with Returns m => m | Raises _ => model st end
      | None => model st
      end.
Proof.
  unfold load_model. py_unfold. rewrite load_model_metadata_frame.
  destruct (disk env !! MODEL_PATH env) as [f|].
  - destruct (joblib_load f) as [m|e]; eexists; (split; [reflexivity|]); done.
  - eexists. split; [reflexivity|]. done.
Qed.

(** The two ways [reload_model] ends. It returns only with a model in the
    holder; otherwise it raises a 500 with the holder back to what it held
    before the call. Either way [model_metadata] is what the metadata
    loader made of it, and the request counter and the trace of model
    calls are untouched. *)
Lemma reload_model_cases env st :
  ∃ o st',
    reload_model env st = (o, st') ∧
    model_metadata st' = metadata_after_load env st ∧
    REQUEST_COUNT st' = REQUEST_COUNT st ∧
    model_calls st' = model_calls st ∧
    ((∃ b, o = Returns b ∧ is_Some (model st') ∧
           ∃ f, disk env !! MODEL_PATH env = Some f ∧ joblib_load f = Returns (model st')) ∨
     (∃ detail, o = Raises (HTTPException 500 detail) ∧ model st' = model st ∧
                st' = set_model (model st) (snd (load_model env (set_model None st))) ∧
                (model_file_unloadable env ∨
                 ∃ f, disk env !! MODEL_PATH env = Some f ∧ joblib_load f = Returns None))).
Proof.
  unfold reload_model. py_unfold.
  destruct (load_model_frame env (set_model None st))
    as (st1 & Hrun & Hmd & Hrc & Hcalls & Hmodel).
  py_unfold. rewrite Hrun.
  rewrite metadata_after_load_set_model in Hmd. simpl in Hrc, Hcalls, Hmodel.
  destruct (model st1) as [m|] eqn:Hst1.
  - rewrite bool_decide_eq_true_2 by eauto.
    do 2 eexists. split; [reflexivity|]. repeat split; try done.
    left. eexists. split; [reflexivity|]. rewrite Hst1. split; [eauto|].
    destruct (disk env !! MODEL_PATH env) as [f|]; [|discriminate].
    exists f. split; [done|]. destruct (joblib_load f); [congruence|discriminate].
  - rewrite bool_decide_eq_false_2 by (intros [? ?]; discriminate).
    do 2 eexists. split; [reflexivity|]. simpl. repeat split; try done.
    right. eexists. split; [reflexivity|]. split; [done|].
    split; [reflexivity|].
    unfold model_file_unloadable.
    destruct (disk env !! MODEL_PATH env) as [f|]; [|by left; left].
    destruct (joblib_load f) as [m|e] eqn:Hload.
    + right. exists f. split; [done|]. by rewrite Hmodel.
    + left. right. by exists f, e.
Qed.

(** With the model file missing or unreadable, [reload_model] raises. *)
Lemma reload_model_unloadable env st :
  model_file_unloadable env ->
  ∃ detail st',
    reload_model env st = (Raises (HTTPException 500 detail), st') ∧
    model st' = model st ∧
    model_metadata st' = metadata_after_load env st ∧
    REQUEST_COUNT st' = REQUEST_COUNT st ∧
    model_calls st' = model_calls st.
Proof.
  intros Hbad.
  destruct (reload_model_cases env st)
    as (o & st' & Hrun & Hmd & Hrc & Hcalls & [Hok | Hko]).
  - destruct Hok as (b & _ & _ & f & Hf & Hload).
    destruct Hbad as [Hno | (f' & e & Hf' & He)]; congruence.
  - destruct Hko as (detail & -> & Hm & _). by exists detail, st'.
Qed.

(** Without a [version] key the label is the default. *)
Lemma version_label_default st :
  model_metadata st !! "version" = None -> version_label st = "unknown".
Proof.
  intros Hno. unfold version_label, dict_get. rewrite Hno. apply str_of_PyStr.
Qed.

End Loading.

Section Serving.
Context `{PyRuntime}.

Lemma serve_eq env r st :
  serve env r st = (respond (fst (route env r st)), snd (route env r st)).
Proof. unfold serve. by destruct (route env r st). Qed.

Lemma serve_open env r st :
  dependency r = None ->
  serve env r st = (respond (fst (handler env r st)), snd (handler env r st)).
Proof. intros Hdep. rewrite serve_eq. unfold route. by rewrite Hdep. Qed.

(** A guarded route whose dependency returns runs its handler. *)
Lemma serve_pass env r key st :
  dependency r = Some key -> verify_api_key env key = Returns tt ->
  serve env r st = (respond (fst (handler env r st)), snd (handler env r st)).
Proof.
  intros Hdep Hok. rewrite serve_eq. unfold route. rewrite Hdep.
  by rewrite guarded_pass.
Qed.

(** A guarded route whose dependency raises answers 401 and the handler
    does not run: the state is the one the request found. *)
Lemma serve_reject env r key st :
  dependency r = Some key -> verify_api_key env key ≠ Returns tt ->
  serve env r st = (error_response 401 "Invalid API key", st).
Proof.
  intros Hdep Hko. rewrite serve_eq. unfold route. rewrite Hdep.
  destruct (verify_api_key_cases env key) as [Hok | H401]; [contradiction|].
  by rewrite (guarded_reject _ _ _ _ _ H401).
Qed.

(** A returned body is answered 200, or 500 when it cannot be rendered. *)
Lemma respond_returns b :
  (body_renders b = true ∧ respond (Returns b) = {| status := 200; body := b |}) ∨
  (body_renders b = false ∧ respond (Returns b) = internal_server_error).
Proof. unfold respond. destruct (body_renders b); auto. Qed.

(** The confirmation that [reload_model] returns is always rendered. *)
Lemma reloaded_body_renders :
  body_renders (JSON (PyDict (dict_of [("status", PyStr "reloaded");
                                       ("message", PyStr "Model reloaded successfully")])))
  = true.
Proof.
  simpl. apply renders_json_ascii_strings. intros k v Hk.
  unfold dict_of in Hk. simpl in Hk.
  apply lookup_insert_Some in Hk as [[<- <-] | [_ Hk]].
  { split; [reflexivity|]. eexists. split; reflexivity. }
  apply lookup_insert_Some in Hk as [[<- <-] | [_ Hk]].
  { split; [reflexivity|]. eexists. split; reflexivity. }
  by rewrite lookup_empty in Hk.
Qed.

(** A reload that is not answered 200 is one whose handler raised: the
    confirmation it returns otherwise is always rendered. *)
Lemma reload_failure_raised env st :
  status (respond (fst (reload_model env st))) ≠ 200%Z ->
  ∃ detail,
    fst (reload_model env st) = Raises (HTTPException 500 detail) ∧
    model (snd (reload_model env st)) = model st ∧
    snd (reload_model env st)
      = set_model (model st) (snd (load_model env (set_model None st))) ∧
    model_metadata (snd (reload_model env st)) = metadata_after_load env st.
Proof.
  intros Hfail.
  destruct (reload_model_cases env st) as (o & st' & Hrun & Hmd & _ & _ & Hcases).
  destruct Hcases as [(b & -> & Hheld & _) | (detail & -> & Hback & Hstate & _)].
  - exfalso. apply Hfail.
    assert (Hb : b = JSON (PyDict (dict_of [("status", PyStr "reloaded");
                                            ("message", PyStr "Model reloaded successfully")]))).
    { revert Hrun. unfold reload_model. py_unfold.
      destruct (load_model_frame env (set_model None st)) as (st1 & -> & _).
      destruct (bool_decide (is_Some (model st1))); [|discriminate].
      by intros [= <- _]. }
    rewrite Hrun. cbn [fst]. unfold respond.
    by rewrite Hb, reloaded_body_renders.
  - rewrite Hrun. by exists detail.
Qed.

(** No handler body ever answers 401: that status is the dependency's. *)
Lemma handler_never_401 env r st :
  status (respond (fst (handler env r st))) ≠ 401%Z.
Proof.
  assert (Hret : ∀ b, status (respond (Returns b)) ≠ 401%Z).
  { intros b. by destruct (respond_returns b) as [[_ ->] | [_ ->]]. }
  destruct r as [|key|key req| |key]; cbn [handler].
  - unfold health. py_unfold. cbn [fst]. apply Hret.
  - unfold model_info. py_unfold.
    destruct (dict_truthy (model_metadata st)); cbn [negb fst]; [|done].
    destruct (ModelInfo_new _ _ _ _ _ _) as [info|e] eqn:Hnew; cbn [fst]; [apply Hret|].
    unfold ModelInfo_new in Hnew.
    repeat match type of Hnew with
           | match ?x with _ => _ end = _ => destruct x
           end; inversion Hnew; done.
  - destruct (predict req st) as [[b|e] st'] eqn:Hrun; cbn [fst]; [apply Hret|].
    destruct (predict_failure _ _ _ _ Hrun) as [[detail [-> | ->]] _]; done.
  - unfold metrics. py_unfold. cbn [fst]. apply Hret.
  - destruct (reload_model_cases env st) as (o & st' & Hrun & _ & _ & _ & Hcases).
    rewrite Hrun. cbn [fst].
    destruct Hcases as [(b & -> & _) | (detail & -> & _)]; [apply Hret | done].
Qed.

End Serving.

Section Information.
Context `{PyRuntime}.

Lemma model_info_unavailable st :
  model_metadata st = ∅ ->
  model_info st = (Raises (HTTPException 404 "Model metadata not available"), st).
Proof.
  intros Hmd. unfold model_info. py_unfold.
  apply dict_truthy_empty in Hmd. by rewrite Hmd.
Qed.

(** [model_info] reads the state and leaves it alone. *)
Lemma model_info_pure st : snd (model_info st) = st.
Proof.
  unfold model_info. py_unfold.
  destruct (negb (dict_truthy (model_metadata st))); [reflexivity|].
  by destruct (ModelInfo_new _ _ _ _ _ _).
Qed.

(** A [str] field whose key is absent from the metadata receives [None],
    which pydantic refuses: the constructor raises. *)
Lemma ModelInfo_new_absent_string md k :
  k ∈ string_fields -> md !! k = None ->
  ModelInfo_new (dict_get md "model_name" PyNone) (dict_get md "version" PyNone)
                (dict_get md "algorithm" PyNone) (dict_get md "r2_score" (PyFloat 0))
                (dict_get md "trained_at" PyNone) (dict_get md "feature_count" (PyInt 0))
  = Raises (PyError "ValidationError" "ModelInfo").
Proof.
  intros Hk Hnone. unfold string_fields in Hk.
  assert (Hget : dict_get md k PyNone = PyNone) by (unfold dict_get; by rewrite Hnone).
  unfold ModelInfo_new.
  repeat (apply elem_of_cons in Hk as [-> | Hk]);
    [ | | | | by apply elem_of_nil in Hk ];
    rewrite Hget, validate_str_None;
    repeat match goal with
           | |- context [match ?x with _ => _ end] => destruct x
           end; reflexivity.
Qed.

(** With the four strings present, the two numeric fields fall back to
    [0.0] and [0] when their keys are absent. *)
Lemma model_info_complete st n v a t :
  model_metadata st !! "model_name" = Some (PyStr n) ->
  model_metadata st !! "version" = Some (PyStr v) ->
  model_metadata st !! "algorithm" = Some (PyStr a) ->
  model_metadata st !! "trained_at" = Some (PyStr t) ->
  model_metadata st !! "r2_score" = None ->
  model_metadata st !! "feature_count" = None ->
  model_info st =
    (Returns (Typed {| name := n; version := v; algorithm := a; r2_score := 0;
                       trained_at := t; features := 0 |}), st).
Proof.
  intros Hn Hv Ha Ht Hr Hf. unfold model_info. py_unfold.
  assert (Hne : dict_truthy (model_metadata st) = true).
  { apply dict_truthy_nonempty. intros Hempty. rewrite Hempty in Hn.
    by rewrite lookup_empty in Hn. }
  rewrite Hne. simpl. unfold ModelInfo_new, dict_get.
  rewrite Hn, Hv, Ha, Ht, Hr, Hf. simpl.
  by rewrite !validate_str_PyStr, validate_float_PyFloat, validate_int_PyInt.
Qed.

End Information.

(** * The claims *)

Section Claims.
Context `{PyRuntime}.

(** C1 (code bug).  With a model loaded, a [POST /predict] request that
    reaches the handler with no row at all, or with a row whose length
    differs from the expected feature count, is answered with status 500,
    not 400: the handler's [except Exception] catches the 400 it has just
    raised.  The model is not called and the error child of the request
    counter goes up by one. *)
Theorem predict_invalid_inputs_answered_500 env key req st m :
  verify_api_key env key = Returns tt ->
  model st = Some m ->
  invalid_inputs st req ->
  status (fst (serve env (POST_predict key req) st)) = 500%Z ∧
  model_calls (snd (serve env (POST_predict key req) st)) = model_calls st ∧
  counter_value (REQUEST_COUNT (snd (serve env (POST_predict key req) st))) (error_child st)
    = S (counter_value (REQUEST_COUNT st) (error_child st)).
Proof.
  intros Hkey Hm Hbad.
  rewrite (serve_pass env _ key) by done. simpl.
  destruct (predict_invalid req st m Hm Hbad) as [detail Hrun].
  rewrite Hrun. simpl. by rewrite counter_value_inc.
Qed.

(** C3 (amended).  Every [POST /predict] request that passes
    authentication while no model is loaded is answered 503, and before
    that the error child of the request counter is incremented by exactly
    one: no other child and nothing else of the state changes. *)
Theorem predict_without_model_answers_503 env key req st :
  verify_api_key env key = Returns tt ->
  model st = None ->
  serve env (POST_predict key req) st =
    (error_response 503 "Model not loaded",
     set_REQUEST_COUNT (counter_inc (error_child st) (REQUEST_COUNT st)) st) ∧
  counter_value (REQUEST_COUNT (snd (serve env (POST_predict key req) st))) (error_child st)
    = S (counter_value (REQUEST_COUNT st) (error_child st)) ∧
  ∀ child, child ≠ error_child st ->
    counter_value (REQUEST_COUNT (snd (serve env (POST_predict key req) st))) child
    = counter_value (REQUEST_COUNT st) child.
Proof.
  intros Hkey Hm.
  rewrite (serve_pass env _ key) by done. simpl.
  rewrite (predict_unloaded req st Hm). simpl.
  split; [reflexivity|]. split.
  - apply counter_value_inc.
  - intros child Hne. by apply counter_value_inc_ne.
Qed.

(** C10 (amended).  For a [POST /predict] request that passes
    authentication while no model is loaded, the body plays no part: the
    answer is 503 whatever [inputs] holds, an empty list and rows of the
    wrong length included, and response and state are those of any other
    body. *)
Theorem predict_without_model_ignores_body env key st :
  verify_api_key env key = Returns tt ->
  model st = None ->
  ∀ req,
    status (fst (serve env (POST_predict key req) st)) = 503%Z ∧
    ∀ req', serve env (POST_predict key req') st = serve env (POST_predict key req) st.
Proof.
  intros Hkey Hm req. split.
  - rewrite (serve_pass env _ key) by done. simpl.
    by rewrite (predict_unloaded req st Hm).
  - intros req'. rewrite !(serve_pass env _ key) by done. simpl.
    by rewrite !predict_unloaded.
Qed.


(** C8.  On a route guarded by the key check: with no secret configured
    the handler runs whatever key is supplied; with a secret configured, a
    missing or different key is answered 401 and the handler does not run
    (the state is untouched), while the matching key lets the handler run.
    No handler answers 401 itself, so 401 means exactly a refused key. *)
Theorem api_key_gate env r key st :
  dependency r = Some key ->
  (no_secret_configured env ->
     serve env r st = (respond (fst (handler env r st)), snd (handler env r st))) ∧
  (∀ secret, secret_configured env secret -> key ≠ Some secret ->
     serve env r st = (error_response 401 "Invalid API key", st)) ∧
  (∀ secret, secret_configured env secret -> key = Some secret ->
     serve env r st = (respond (fst (handler env r st)), snd (handler env r st))) ∧
  status (respond (fst (handler env r st))) ≠ 401%Z.
Proof.
  intros Hdep. repeat split.
  - intros Hnone. apply (serve_pass env r key); [done|].
    apply verify_api_key_unconfigured. by destruct Hnone as [-> | ->].
  - intros secret Hcfg Hne. apply (serve_reject env r key); [done|].
    by rewrite (verify_api_key_mismatch env secret key).
  - intros secret [Hcfg _] ->. apply (serve_pass env r (Some secret)); [done|].
    by apply verify_api_key_match.
  - apply handler_never_401.
Qed.

(** C2.  When the fresh load of a [POST /model/reload] fails (the model
    file is missing or [joblib.load] raises on it) and a model was loaded
    before, the request is answered 500 and the holder contains the model
    it held before: a later accepted [POST /predict] calls that model and
    is answered with its predictions.  More generally no failed reload
    request, whatever the reason, leaves a previously loaded holder
    empty. *)
Theorem reload_failure_restores_model env key st m :
  model st = Some m ->
  (status (fst (serve env (POST_model_reload key) st)) ≠ 200%Z ->
   model (snd (serve env (POST_model_reload key) st)) = Some m) ∧
  (verify_api_key env key = Returns tt -> model_file_unloadable env ->
   status (fst (serve env (POST_model_reload key) st)) = 500%Z ∧
   model (snd (serve env (POST_model_reload key) st)) = Some m ∧
   ∀ env' key' req preds out,
     verify_api_key env' key' = Returns tt ->
     inputs req ≠ [] ->
     rows_accepted (expected_features (snd (serve env (POST_model_reload key) st)))
                   (inputs req) = true ->
     predict_method m (inputs req) = Returns preds ->
     tolist preds = Returns out ->
     fst (serve env' (POST_predict key' req) (snd (serve env (POST_model_reload key) st)))
       = respond (Returns (JSON (PyDict (dict_of [("predictions", out)])))) ∧
     model_calls (snd (serve env' (POST_predict key' req)
                         (snd (serve env (POST_model_reload key) st))))
       = model_calls st ++ [inputs req]).
Proof.
  intros Hm. split.
  - intros Hfail.
    destruct (verify_api_key_cases env key) as [Hkey | Hkey].
    + rewrite (serve_pass env _ key) in Hfail |- * by done. cbn [handler fst snd] in *.
      destruct (reload_failure_raised env st Hfail) as (detail & _ & Hback & _).
      by rewrite Hback.
    + rewrite (serve_reject env _ key) by (done || congruence). done.
  - intros Hkey Hbad.
    rewrite (serve_pass env _ key) by done. cbn [handler fst snd].
    destruct (reload_model_unloadable env st Hbad)
      as (detail & st' & Hrun & Hback & _ & _ & Hcalls).
    rewrite Hrun. cbn [fst snd]. rewrite Hback, Hm.
    split; [reflexivity|]. split; [reflexivity|].
    intros env' key' req preds out Hkey' Hne Hacc Hpred Hout.
    rewrite (serve_pass env' _ key') by done. cbn [handler].
    rewrite (predict_accepted req st' m preds out) by congruence.
    cbn [fst snd]. split; [reflexivity|]. simpl. by rewrite Hcalls.
Qed.

(** C9.  A [POST /model/reload] that fails leaves the model reference as
    it was before the request, and rolls back nothing else.  When the
    handler ran (the key check passed) the answer is 500 and the state left
    is the one its load attempt produced, with only [model] put back: in
    particular [model_metadata] is what the metadata loader of that
    attempt made it (the parsed dict of the file now on disk, the empty
    dict when that file does not parse), not what it was before the
    request.  When the key check refused the request nothing ran and the
    state is untouched. *)
Theorem reload_failure_keeps_loaded_metadata env key st :
  status (fst (serve env (POST_model_reload key) st)) ≠ 200%Z ->
  model (snd (serve env (POST_model_reload key) st)) = model st ∧
  (verify_api_key env key = Returns tt ->
   status (fst (serve env (POST_model_reload key) st)) = 500%Z ∧
   snd (serve env (POST_model_reload key) st)
     = set_model (model st) (snd (load_model env (set_model None st))) ∧
   model_metadata (snd (serve env (POST_model_reload key) st)) = metadata_after_load env st ∧
   (∀ f d, disk env !! MODEL_VERSION_FILE env = Some f -> json_load f = Returns (PyDict d) ->
           model_metadata (snd (serve env (POST_model_reload key) st)) = d) ∧
   (metadata_file_unparsable env ->
    model_metadata (snd (serve env (POST_model_reload key) st)) = ∅)) ∧
  (verify_api_key env key ≠ Returns tt ->
   snd (serve env (POST_model_reload key) st) = st).
Proof.
  intros Hfail.
  destruct (verify_api_key_cases env key) as [Hkey | Hkey].
  - rewrite (serve_pass env _ key) in Hfail |- * by done. cbn [handler fst snd] in *.
    destruct (reload_failure_raised env st Hfail) as (detail & Hrun & Hback & Hstate & Hmd).
    rewrite Hrun. cbn [respond error_response status].
    split; [done|]. split; [|done].
    intros _. repeat split; try done.
    + intros f d Hf Hd. rewrite Hmd. unfold metadata_after_load.
      by rewrite (load_model_metadata_parsed env st f d).
    + intros Hbad. rewrite Hmd. unfold metadata_after_load.
      by rewrite load_model_metadata_unparsable.
  - rewrite (serve_reject env _ key) by (done || congruence). simpl.
    split; [done|]. split; [|done].
    intros Hok. congruence.
Qed.

(** C4 (code bug).  The metadata loader never raises, and a file that is
    there but does not parse leaves the metadata empty; but a missing file
    leaves the state exactly as it was, so metadata loaded earlier stays
    (it is empty only if it was empty before the call). *)
Theorem load_model_metadata_outcomes env st :
  fst (load_model_metadata env st) = Returns tt ∧
  (metadata_file_unparsable env ->
   snd (load_model_metadata env st) = set_model_metadata ∅ st) ∧
  (disk env !! MODEL_VERSION_FILE env = None ->
   snd (load_model_metadata env st) = st).
Proof.
  split; [by rewrite load_model_metadata_frame|]. split.
  - intros Hbad. by rewrite load_model_metadata_unparsable.
  - intros Hno. by rewrite load_model_metadata_missing.
Qed.


(** C7 (code bug).  For a [GET /model/info] request that passes
    authentication with non-empty metadata in which one of the four string
    fields is absent, the handler does not return a [ModelInfo] with an
    empty default: the constructor receives [None], raises, and the
    request is answered 500. *)
Theorem model_info_absent_string_field_answers_500 env key st k :
  verify_api_key env key = Returns tt ->
  model_metadata st ≠ ∅ ->
  k ∈ string_fields ->
  model_metadata st !! k = None ->
  serve env (GET_model_info key) st = (internal_server_error, st).
Proof.
  intros Hkey Hmd Hk Hnone.
  rewrite (serve_pass env _ key) by done. simpl.
  unfold model_info. py_unfold.
  apply dict_truthy_nonempty in Hmd. rewrite Hmd. simpl.
  by rewrite (ModelInfo_new_absent_string _ k).
Qed.

End Claims.

(** * The claims on concrete runs *)

(** C1, at a request with a row of seven features in a service expecting
    eight: the answer is 500 and the model is not called. *)
Lemma predict_invalid_inputs_answered_500_witness :
  invalid_inputs serving_state {| inputs := [row8; row7] |} ∧
  status (fst (serve bare_env (POST_predict None {| inputs := [row8; row7] |})
                 serving_state)) = 500%Z ∧
  model_calls (snd (serve bare_env (POST_predict None {| inputs := [row8; row7] |})
                      serving_state)) = [].
Proof.
  assert (Hbad : invalid_inputs serving_state {| inputs := [row8; row7] |}).
  { right. exists row7. split; [|reflexivity]. apply elem_of_cons. right. apply elem_of_cons. by left. }
  split; [exact Hbad|].
  destruct (predict_invalid_inputs_answered_500 bare_env None
              {| inputs := [row8; row7] |} serving_state (constant_model 1.5)
              eq_refl eq_refl Hbad) as (H500 & Hcalls & _).
  split; [exact H500 | exact Hcalls].
Defined.

(** C3, counterexample to the claim as stated: with a secret configured
    and no key supplied, a request made while no model is loaded is
    answered 401, and the request counter stays empty. *)
Lemma predict_without_model_rejected_key :
  model initial_state = None ∧
  status (fst (serve secret_env (POST_predict None {| inputs := [row8] |})
                 initial_state)) = 401%Z ∧
  REQUEST_COUNT (snd (serve secret_env (POST_predict None {| inputs := [row8] |})
                        initial_state)) = ∅.
Proof. repeat split; reflexivity. Qed.

(** C3 as amended, with the matching key. *)
Lemma predict_without_model_answers_503_witness :
  status (fst (serve secret_env (POST_predict (Some "secret") {| inputs := [row8] |})
                 initial_state)) = 503%Z ∧
  counter_value
    (REQUEST_COUNT (snd (serve secret_env (POST_predict (Some "secret") {| inputs := [row8] |})
                           initial_state)))
    ("error", "unknown") = 1.
Proof.
  destruct (predict_without_model_answers_503 secret_env (Some "secret")
              {| inputs := [row8] |} initial_state eq_refl eq_refl) as (Hrun & Hinc & _).
  split; [by rewrite Hrun | exact Hinc].
Defined.

(** C10, counterexample to the claim as stated: an empty [inputs] list
    sent with a wrong key while no model is loaded is answered 401. *)
Lemma predict_without_model_empty_body_rejected_key :
  model initial_state = None ∧
  status (fst (serve secret_env (POST_predict (Some "guess") {| inputs := [] |})
                 initial_state)) = 401%Z.
Proof. split; reflexivity. Qed.

(** C10 as amended: an empty list and a short row both get the 503. *)
Lemma predict_without_model_ignores_body_witness :
  status (fst (serve bare_env (POST_predict None {| inputs := [] |}) initial_state)) = 503%Z ∧
  serve bare_env (POST_predict None {| inputs := [row7] |}) initial_state
    = serve bare_env (POST_predict None {| inputs := [] |}) initial_state.
Proof.
  destruct (predict_without_model_ignores_body bare_env None initial_state
              eq_refl eq_refl {| inputs := [] |}) as (H503 & Hsame).
  split; [exact H503 | exact (Hsame {| inputs := [row7] |})].
Defined.




(** C8, on [/model/info] with [API_KEY="secret"]: no key and a wrong key
    get 401, the right key gets the handler's answer; with no secret any
    key does. *)
Lemma api_key_gate_witness :
  status (fst (serve secret_env (GET_model_info None) serving_state)) = 401%Z ∧
  status (fst (serve secret_env (GET_model_info (Some "guess")) serving_state)) = 401%Z ∧
  serve secret_env (GET_model_info (Some "secret")) initial_state
    = (error_response 404 "Model metadata not available", initial_state) ∧
  serve bare_env (GET_model_info (Some "guess")) initial_state
    = (error_response 404 "Model metadata not available", initial_state).
Proof.
  assert (Hcfg : secret_configured secret_env "secret") by (split; [reflexivity|discriminate]).
  split; [|split; [|split]].
  - destruct (api_key_gate secret_env (GET_model_info None) None serving_state eq_refl)
      as (_ & Hreject & _).
    by rewrite (Hreject "secret" Hcfg).
  - destruct (api_key_gate secret_env (GET_model_info (Some "guess")) (Some "guess")
                serving_state eq_refl) as (_ & Hreject & _).
    by rewrite (Hreject "secret" Hcfg).
  - destruct (api_key_gate secret_env (GET_model_info (Some "secret")) (Some "secret")
                initial_state eq_refl) as (_ & _ & Hpass & _).
    by rewrite (Hpass "secret" Hcfg).
  - destruct (api_key_gate bare_env (GET_model_info (Some "guess")) (Some "guess")
                initial_state eq_refl) as (Hopen & _).
    rewrite Hopen; [reflexivity | by left].
Defined.

(** C2, with the model file deleted: the reload is answered 500, the
    holder still has the model loaded before, and the next prediction is
    that model's. *)
Lemma reload_failure_restores_model_witness :
  model_file_unloadable bare_env ∧
  status (fst (serve bare_env (POST_model_reload None) serving_state)) = 500%Z ∧
  model (snd (serve bare_env (POST_model_reload None) serving_state))
    = Some (constant_model 1.5) ∧
  fst (serve bare_env (POST_predict None {| inputs := [row8] |})
         (snd (serve bare_env (POST_model_reload None) serving_state)))
    = {| status := 200;
         body := JSON (PyDict (dict_of [("predictions", PyList [PyFloat 1.5])])) |}.
Proof.
  assert (Hgone : model_file_unloadable bare_env) by (left; reflexivity).
  split; [exact Hgone|].
  destruct (reload_failure_restores_model bare_env None serving_state
              (constant_model 1.5) eq_refl) as (_ & Hfailed).
  destruct (Hfailed eq_refl Hgone) as (H500 & Hheld & Hserves).
  split; [exact H500|]. split; [exact Hheld|].
  refine (proj1 (Hserves bare_env None {| inputs := [row8] |}
                   {| tolist := Returns (PyList [PyFloat 1.5]) |} (PyList [PyFloat 1.5])
                   eq_refl _ eq_refl eq_refl eq_refl)).
  discriminate.
Defined.

(** C9, with the model file deleted and the metadata file rewritten:
    the failed reload keeps the old model but leaves the new file's
    metadata in place, which is not the metadata held before. *)
Lemma reload_failure_keeps_loaded_metadata_witness :
  status (fst (serve republished_env (POST_model_reload None) serving_state)) = 500%Z ∧
  model (snd (serve republished_env (POST_model_reload None) serving_state))
    = model serving_state ∧
  model_metadata (snd (serve republished_env (POST_model_reload None) serving_state))
    = next_metadata ∧
  next_metadata ≠ model_metadata serving_state.
Proof.
  assert (Hfail : status (fst (serve republished_env (POST_model_reload None) serving_state))
                  ≠ 200%Z) by (vm_compute; discriminate).
  destruct (reload_failure_keeps_loaded_metadata republished_env None serving_state Hfail)
    as (Hheld & Hran & _).
  destruct (Hran eq_refl) as (H500 & _ & _ & Hparsed & _).
  split; [exact H500|]. split; [exact Hheld|]. split.
  - exact (Hparsed _ next_metadata eq_refl eq_refl).
  - intros Heq. apply (f_equal (fun d => d !! "version")) in Heq. discriminate.
Defined.

(** C4, at a reload-time call with the metadata file gone: the metadata
    loaded earlier is still there, and it is not empty. *)
Lemma load_model_metadata_outcomes_witness :
  disk bare_env !! MODEL_VERSION_FILE bare_env = None ∧
  model_metadata (snd (load_model_metadata bare_env serving_state)) = housing_metadata ∧
  housing_metadata ≠ ∅.
Proof.
  split; [reflexivity|]. split.
  - destruct (load_model_metadata_outcomes bare_env serving_state) as (_ & _ & Hmissing).
    by rewrite Hmissing.
  - intros Heq. apply (f_equal (fun d => d !! "version")) in Heq. discriminate.
Defined.

(** C6 on the two extreme states. *)
Example health_degraded_and_ok :
  fst (serve bare_env GET_health initial_state)
    = {| status := 200;
         body := JSON (PyDict (dict_of [("status", PyStr "degraded");
                                        ("model_loaded", PyBool false);
                                        ("model_path", PyStr "/models/model.pkl");
                                        ("metadata_loaded", PyBool false)])) |} ∧
  fst (serve bare_env GET_health serving_state)
    = {| status := 200;
         body := JSON (PyDict (dict_of [("status", PyStr "ok");
                                        ("model_loaded", PyBool true);
                                        ("model_path", PyStr "/models/model.pkl");
                                        ("metadata_loaded", PyBool true);
                                        ("model_name", PyStr "california-housing");
                                        ("model_version", PyStr "1.0");
                                        ("r2_score", PyNone)])) |}.
Proof. split; reflexivity. Qed.

(** C7, on the example metadata, which has no [algorithm] and no
    [trained_at]: [/model/info] is answered 500. *)
Lemma model_info_absent_string_field_answers_500_witness :
  model_metadata serving_state !! "algorithm" = None ∧
  serve bare_env (GET_model_info None) serving_state
    = (internal_server_error, serving_state).
Proof.
  split; [reflexivity|].
  apply (model_info_absent_string_field_answers_500 bare_env None serving_state "algorithm").
  - reflexivity.
  - intros Heq. apply (f_equal (fun d => d !! "version")) in Heq. discriminate.
  - unfold string_fields. apply elem_of_cons. right. apply elem_of_cons. right.
    apply elem_of_cons. by left.
  - reflexivity.
Defined.

(** * Further properties of the loader and of the reload route *)

Section LoaderCoverage.
Context `{PyRuntime}.

(** [load_model] with a readable pickle: the state it leaves. *)
Lemma load_model_loaded env st f obj :
  disk env !! MODEL_PATH env = Some f -> joblib_load f = Returns obj ->
  load_model env st =
    (Returns tt,
     set_MODEL_VERSION
       (<[version_child (set_model_metadata (metadata_after_load env st) st) := 1%Z]>
          (MODEL_VERSION st))
       (set_MODEL_LOAD_TIME (Some (now env))
          (set_model obj (set_model_metadata (metadata_after_load env st) st)))).
Proof.
  intros Hf Hobj. unfold load_model. py_unfold.
  by rewrite load_model_metadata_frame, Hf, Hobj.
Qed.

(** [load_model] with the pickle missing or unreadable. *)
Lemma load_model_not_loaded env st :
  model_file_unloadable env ->
  load_model env st =
    (Returns tt,
     set_MODEL_VERSION
       (<[version_child (set_model_metadata (metadata_after_load env st) st) := 0%Z]>
          (MODEL_VERSION st))
       (set_model_metadata (metadata_after_load env st) st)).
Proof.
  intros Hbad. unfold load_model. py_unfold. rewrite load_model_metadata_frame.
  destruct Hbad as [Hno | (f & e & Hf & He)].
  - by rewrite Hno.
  - by rewrite Hf, He.
Qed.

(** In every case [load_model] writes one child of the version gauge, the
    one labelled by the metadata it has just loaded, and returns. *)
Lemma load_model_gauge env st :
  ∃ v, MODEL_VERSION (snd (load_model env st))
       = <[version_child (snd (load_model env st)) := v]> (MODEL_VERSION st).
Proof.
  destruct (disk env !! MODEL_PATH env) as [f|] eqn:Hf.
  - destruct (joblib_load f) as [obj|e] eqn:Hload.
    + rewrite (load_model_loaded env st f obj) by done. by exists 1%Z.
    + rewrite load_model_not_loaded by (right; eauto). by exists 0%Z.
  - rewrite load_model_not_loaded by (by left). by exists 0%Z.
Qed.

(** [reload_model] with a pickle that holds a model. *)
Lemma reload_model_loaded env st f m' :
  disk env !! MODEL_PATH env = Some f -> joblib_load f = Returns (Some m') ->
  reload_model env st =
    (Returns (JSON (PyDict (dict_of [("status", PyStr "reloaded");
                                     ("message", PyStr "Model reloaded successfully")]))),
     snd (load_model env (set_model None st))).
Proof.
  intros Hf Hobj. unfold reload_model. py_unfold.
  by rewrite (load_model_loaded env _ f (Some m')).
Qed.

(** [reload_model] with a pickle that holds [None]: the load itself went
    through, the handler finds the holder empty and raises; its own
    [except] wraps that 500 in another one. *)
Lemma reload_model_hollow env st f :
  disk env !! MODEL_PATH env = Some f -> joblib_load f = Returns None ->
  reload_model env st =
    (Raises (HTTPException 500 (str_of_exn (HTTPException 500 "Failed to reload model"))),
     set_model (model st) (snd (load_model env (set_model None st)))).
Proof.
  intros Hf Hobj. unfold reload_model. py_unfold.
  by rewrite (load_model_loaded env _ f None).
Qed.

(** The ["status"] entry of the health body. *)
Lemma health_status env st :
  ∃ d, health env st = (Returns (JSON (PyDict d)), st) ∧
       d !! "status"
       = Some (PyStr (if bool_decide (is_Some (model st)) then "ok" else "degraded")).
Proof.
  unfold health. py_unfold. simpl. eexists. split; [reflexivity|].
  destruct (dict_truthy (model_metadata st)); reflexivity.
Qed.

(** X1.  When the model file is there and [joblib.load] returns, the
    loader returns too and leaves the unpickled object in the holder, the
    freshly read metadata in [model_metadata], the clock in the load-time
    gauge and 1 in the version gauge child labelled by that metadata; the
    request counter, the latency histogram and the trace of model calls
    are as before. *)
Theorem load_model_success_effects env st f obj :
  disk env !! MODEL_PATH env = Some f ->
  joblib_load f = Returns obj ->
  fst (load_model env st) = Returns tt ∧
  model (snd (load_model env st)) = obj ∧
  model_metadata (snd (load_model env st)) = metadata_after_load env st ∧
  MODEL_LOAD_TIME (snd (load_model env st)) = Some (now env) ∧
  MODEL_VERSION (snd (load_model env st)) !! version_child (snd (load_model env st))
    = Some 1%Z ∧
  REQUEST_COUNT (snd (load_model env st)) = REQUEST_COUNT st ∧
  REQUEST_LATENCY (snd (load_model env st)) = REQUEST_LATENCY st ∧
  model_calls (snd (load_model env st)) = model_calls st.
Proof.
  intros Hf Hobj. rewrite (load_model_loaded env st f obj) by done. simpl.
  repeat split; try reflexivity.
  apply lookup_insert_eq.
Qed.


(** X3.  A load writes a single child of the version gauge: every child
    with other labels keeps its value, so the child of a version loaded
    earlier still reads 1 after a newer version has been loaded. *)
Theorem load_model_keeps_other_gauge_children env st child :
  child ≠ version_child (snd (load_model env st)) ->
  MODEL_VERSION (snd (load_model env st)) !! child = MODEL_VERSION st !! child.
Proof.
  intros Hne. destruct (load_model_gauge env st) as [v Hgauge].
  rewrite Hgauge. by apply lookup_insert_ne.
Qed.

(** X4.  If the model file is missing or unreadable when the service
    starts, the holder is empty after the startup hook: the health handler
    reports ["degraded"] and every prediction request that passes the key
    check is answered 503. *)
Theorem startup_without_model_is_degraded env :
  model_file_unloadable env ->
  model (startup env) = None ∧
  (∃ d, serve env GET_health (startup env)
        = (respond (Returns (JSON (PyDict d))), startup env) ∧
        d !! "status" = Some (PyStr "degraded")) ∧
  ∀ key req,
    verify_api_key env key = Returns tt ->
    fst (serve env (POST_predict key req) (startup env))
      = error_response 503 "Model not loaded".
Proof.
  intros Hbad.
  assert (Hempty : model (startup env) = None).
  { unfold startup. by rewrite load_model_not_loaded. }
  split; [exact Hempty|]. split.
  - rewrite serve_open by reflexivity. unfold handler.
    destruct (health_status env (startup env)) as (d & Hrun & Hstatus).
    rewrite Hrun. exists d. split; [reflexivity|].
    by rewrite Hstatus, Hempty.
  - intros key req Hkey.
    rewrite (serve_pass env _ key) by done. simpl.
    by rewrite (predict_unloaded req _ Hempty).
Qed.

(** X5.  A reload that passes the key check and finds a pickle holding a
    model answers 200 with the confirmation message and swaps the holder
    to the new model; the load-time gauge takes the clock, the metadata is
    the freshly read one, and the request counter is untouched.  A later
    accepted prediction calls the new model and is answered with its
    predictions. *)
Theorem reload_success_swaps_model env key st f m' :
  verify_api_key env key = Returns tt ->
  disk env !! MODEL_PATH env = Some f ->
  joblib_load f = Returns (Some m') ->
  fst (serve env (POST_model_reload key) st)
    = {| status := 200;
         body := JSON (PyDict (dict_of [("status", PyStr "reloaded");
                                        ("message", PyStr "Model reloaded successfully")])) |} ∧
  model (snd (serve env (POST_model_reload key) st)) = Some m' ∧
  model_metadata (snd (serve env (POST_model_reload key) st)) = metadata_after_load env st ∧
  MODEL_LOAD_TIME (snd (serve env (POST_model_reload key) st)) = Some (now env) ∧
  REQUEST_COUNT (snd (serve env (POST_model_reload key) st)) = REQUEST_COUNT st ∧
  ∀ env' key' req preds out,
    verify_api_key env' key' = Returns tt ->
    inputs req ≠ [] ->
    rows_accepted (expected_features (snd (serve env (POST_model_reload key) st)))
                  (inputs req) = true ->
    predict_method m' (inputs req) = Returns preds ->
    tolist preds = Returns out ->
    fst (serve env' (POST_predict key' req) (snd (serve env (POST_model_reload key) st)))
      = respond (Returns (JSON (PyDict (dict_of [("predictions", out)])))) ∧
    model_calls (snd (serve env' (POST_predict key' req)
                        (snd (serve env (POST_model_reload key) st))))
      = model_calls st ++ [inputs req].
Proof.
  intros Hkey Hf Hobj.
  rewrite (serve_pass env _ key) by done. cbn [handler].
  rewrite (reload_model_loaded env st f m') by done. cbn [fst snd].
  rewrite (load_model_loaded env _ f (Some m')) by done. cbn [fst snd].
  rewrite metadata_after_load_set_model.
  split.
  { unfold respond. by rewrite reloaded_body_renders. }
  repeat split; try reflexivity.
  - rewrite (serve_pass env' _ key') by done. cbn [handler].
    by rewrite (predict_accepted req _ m' preds out).
  - rewrite (serve_pass env' _ key') by done. cbn [handler].
    by rewrite (predict_accepted req _ m' preds out).
Qed.

(** X6.  A reload whose pickle unpickles to [None] is a failed reload
    although [joblib.load] returned: the answer is 500 and the holder gets
    back what it held, but the load-time gauge has taken the clock and the
    version gauge child of the new metadata reads 1. *)
Theorem reload_of_none_pickle_fails env key st f :
  verify_api_key env key = Returns tt ->
  disk env !! MODEL_PATH env = Some f ->
  joblib_load f = Returns None ->
  status (fst (serve env (POST_model_reload key) st)) = 500%Z ∧
  model (snd (serve env (POST_model_reload key) st)) = model st ∧
  MODEL_LOAD_TIME (snd (serve env (POST_model_reload key) st)) = Some (now env) ∧
  MODEL_VERSION (snd (serve env (POST_model_reload key) st))
    !! version_child (snd (serve env (POST_model_reload key) st)) = Some 1%Z.
Proof.
  intros Hkey Hf Hobj.
  rewrite (serve_pass env _ key) by done. simpl.
  rewrite (reload_model_hollow env st f) by done. simpl.
  rewrite (load_model_loaded env _ f None) by done. simpl.
  repeat split; try reflexivity.
  apply lookup_insert_eq.
Qed.

End LoaderCoverage.

(** * Further properties of the prediction route *)

Section PredictionCoverage.
Context `{PyRuntime}.

(** A list the validation loop refuses has a row that differs. *)
Lemma rows_rejected_row expected rows :
  rows_accepted expected rows = false ->
  ∃ inp, inp ∈ rows ∧ int_ne (Z.of_nat (length inp)) expected = true.
Proof.
  induction rows as [|inp rows IH]; simpl; [discriminate|].
  destruct (int_ne (Z.of_nat (length inp)) expected) eqn:Hne; simpl.
  - intros _. exists inp. split; [apply elem_of_cons; by left | done].
  - intros Hrest. destruct (IH Hrest) as (bad & Hin & Hbad).
    exists bad. split; [apply elem_of_cons; by right | done].
Qed.

(** With an integer feature count, acceptance is equality of lengths. *)
Lemma rows_accepted_int n rows :
  rows_accepted (PyInt n) rows = true <->
  Forall (fun inp => Z.of_nat (length inp) = n) rows.
Proof.
  unfold rows_accepted. rewrite forallb_forall, Forall_forall.
  split; intros Hall inp Hin.
  - apply list_elem_of_In in Hin. specialize (Hall inp Hin). simpl in Hall.
    apply negb_true_iff, negb_false_iff, Z.eqb_eq in Hall. done.
  - apply list_elem_of_In in Hin. specialize (Hall inp Hin). simpl.
    apply negb_true_iff, negb_false_iff, Z.eqb_eq. done.
Qed.


(** [predict] when the model's own [predict] raises. *)
Lemma predict_model_raises req st m e :
  model st = Some m -> inputs req ≠ [] ->
  rows_accepted (expected_features st) (inputs req) = true ->
  predict_method m (inputs req) = Raises e ->
  predict req st =
    (Raises (HTTPException 500 (str_of_exn e)),
     set_REQUEST_COUNT (counter_inc (error_child st) (REQUEST_COUNT st))
       (log_model_call (inputs req) st)).
Proof.
  intros Hm Hne Hacc Hpred. unfold predict. py_unfold. rewrite Hm.
  rewrite bool_decide_eq_false_2 by done.
  destruct (check_rows_cases (expected_features st) 0 (inputs req) st)
    as [[_ Hchk] | [Hrej _]]; [|congruence].
  by rewrite Hchk, Hpred.
Qed.

(** [predict] when the model answers but [tolist] raises on the answer:
    the success child and the histogram have already moved. *)
Lemma predict_tolist_raises req st m preds e :
  model st = Some m -> inputs req ≠ [] ->
  rows_accepted (expected_features st) (inputs req) = true ->
  predict_method m (inputs req) = Returns preds -> tolist preds = Raises e ->
  predict req st =
    (Raises (HTTPException 500 (str_of_exn e)),
     set_REQUEST_COUNT
       (counter_inc (error_child st)
          (counter_inc ("success", version_label st) (REQUEST_COUNT st)))
       (set_REQUEST_LATENCY (counter_inc (version_label st) (REQUEST_LATENCY st))
          (log_model_call (inputs req) st))).
Proof.
  intros Hm Hne Hacc Hpred Hout. unfold predict. py_unfold. rewrite Hm.
  rewrite bool_decide_eq_false_2 by done.
  destruct (check_rows_cases (expected_features st) 0 (inputs req) st)
    as [[_ Hchk] | [Hrej _]]; [|congruence].
  by rewrite Hchk, Hpred, Hout.
Qed.

(** A request is refused by validation or accepted by it. *)
Lemma inputs_refused_or_accepted st req :
  invalid_inputs st req ∨
  (inputs req ≠ [] ∧ rows_accepted (expected_features st) (inputs req) = true).
Proof.
  destruct (inputs req) as [|inp rows] eqn:Hrows.
  - left. left. done.
  - destruct (rows_accepted (expected_features st) (inp :: rows)) eqn:Hacc.
    + right. by split.
    + left. right. rewrite Hrows. by apply rows_rejected_row.
Qed.

(** X7.  On an accepted prediction request (key check passed, model
    loaded, at least one row, every row of the expected length) on which
    the model and [tolist] succeed, the handler returns the predictions:
    the answer is 200 with them when the framework can render them and 500
    when it cannot (a NaN or an infinity among them).  Either way the
    model has been called once, on the rows of the request; the success
    child of the current version label and the latency histogram are up by
    one; every other child of the request counter, the error children
    included, the holder and the metadata are as before. *)
Theorem predict_success_effects env key req st m preds out :
  verify_api_key env key = Returns tt ->
  model st = Some m ->
  inputs req ≠ [] ->
  rows_accepted (expected_features st) (inputs req) = true ->
  predict_method m (inputs req) = Returns preds ->
  tolist preds = Returns out ->
  fst (serve env (POST_predict key req) st)
    = respond (Returns (JSON (PyDict (dict_of [("predictions", out)])))) ∧
  (renders_json (PyDict (dict_of [("predictions", out)])) = true ->
   fst (serve env (POST_predict key req) st)
     = {| status := 200; body := JSON (PyDict (dict_of [("predictions", out)])) |}) ∧
  (nonfinite out = true ->
   fst (serve env (POST_predict key req) st) = internal_server_error) ∧
  model_calls (snd (serve env (POST_predict key req) st)) = model_calls st ++ [inputs req] ∧
  counter_value (REQUEST_COUNT (snd (serve env (POST_predict key req) st)))
                ("success", version_label st)
    = S (counter_value (REQUEST_COUNT st) ("success", version_label st)) ∧
  (∀ child, child ≠ ("success", version_label st) ->
     counter_value (REQUEST_COUNT (snd (serve env (POST_predict key req) st))) child
     = counter_value (REQUEST_COUNT st) child) ∧
  counter_value (REQUEST_LATENCY (snd (serve env (POST_predict key req) st)))
                (version_label st)
    = S (counter_value (REQUEST_LATENCY st) (version_label st)) ∧
  model (snd (serve env (POST_predict key req) st)) = model st ∧
  model_metadata (snd (serve env (POST_predict key req) st)) = model_metadata st.
Proof.
  intros Hkey Hm Hne Hacc Hpred Hout.
  rewrite (serve_pass env _ key) by done. cbn [handler].
  rewrite (predict_accepted req st m preds out) by done. cbn [fst snd].
  split; [reflexivity|].
  split; [intros Hok; unfold respond; cbn [body_renders]; by rewrite Hok|].
  split.
  { intros Hnf. unfold respond. cbn [body_renders].
    rewrite renders_json_nonfinite; [reflexivity|].
    apply nonfinite_dict. exists "predictions", out. by split. }
  simpl.
  split; [reflexivity|].
  split; [apply counter_value_inc|].
  split; [intros child Hchild; by apply counter_value_inc_ne|].
  split; [apply counter_value_inc|]. done.
Qed.

(** X8.  When the model's [predict] raises on an accepted request, the
    answer is 500 with the exception's text as detail.  The model has been
    called once; the error child of the current version label is up by
    one; no other child of the request counter has moved (no success is
    counted) and no latency is observed. *)
Theorem predict_model_error_effects env key req st m e :
  verify_api_key env key = Returns tt ->
  model st = Some m ->
  inputs req ≠ [] ->
  rows_accepted (expected_features st) (inputs req) = true ->
  predict_method m (inputs req) = Raises e ->
  fst (serve env (POST_predict key req) st) = respond (Raises (HTTPException 500 (str_of_exn e))) ∧
  model_calls (snd (serve env (POST_predict key req) st)) = model_calls st ++ [inputs req] ∧
  counter_value (REQUEST_COUNT (snd (serve env (POST_predict key req) st))) (error_child st)
    = S (counter_value (REQUEST_COUNT st) (error_child st)) ∧
  (∀ child, child ≠ error_child st ->
     counter_value (REQUEST_COUNT (snd (serve env (POST_predict key req) st))) child
     = counter_value (REQUEST_COUNT st) child) ∧
  REQUEST_LATENCY (snd (serve env (POST_predict key req) st)) = REQUEST_LATENCY st.
Proof.
  intros Hkey Hm Hne Hacc Hpred.
  rewrite (serve_pass env _ key) by done. simpl.
  rewrite (predict_model_raises req st m e) by done. simpl.
  split; [reflexivity|]. split; [reflexivity|].
  split; [apply counter_value_inc|].
  split; [intros child Hchild; by apply counter_value_inc_ne|]. done.
Qed.

(** X9.  When the model answers an accepted request but [tolist] raises
    on its answer, the request is answered 500 and is counted twice: the
    success child and the error child of the current version label are
    both up by one, and a latency has been observed. *)
Theorem predict_tolist_error_counted_twice env key req st m preds e :
  verify_api_key env key = Returns tt ->
  model st = Some m ->
  inputs req ≠ [] ->
  rows_accepted (expected_features st) (inputs req) = true ->
  predict_method m (inputs req) = Returns preds ->
  tolist preds = Raises e ->
  fst (serve env (POST_predict key req) st) = respond (Raises (HTTPException 500 (str_of_exn e))) ∧
  counter_value (REQUEST_COUNT (snd (serve env (POST_predict key req) st)))
                ("success", version_label st)
    = S (counter_value (REQUEST_COUNT st) ("success", version_label st)) ∧
  counter_value (REQUEST_COUNT (snd (serve env (POST_predict key req) st))) (error_child st)
    = S (counter_value (REQUEST_COUNT st) (error_child st)) ∧
  counter_value (REQUEST_LATENCY (snd (serve env (POST_predict key req) st)))
                (version_label st)
    = S (counter_value (REQUEST_LATENCY st) (version_label st)) ∧
  model_calls (snd (serve env (POST_predict key req) st)) = model_calls st ++ [inputs req].
Proof.
  intros Hkey Hm Hne Hacc Hpred Hout.
  rewrite (serve_pass env _ key) by done. simpl.
  rewrite (predict_tolist_raises req st m preds e) by done. simpl.
  split; [reflexivity|].
  split.
  { unfold error_child. rewrite counter_value_inc_ne by done. apply counter_value_inc. }
  split.
  { rewrite counter_value_inc. unfold error_child. by rewrite counter_value_inc_ne. }
  split; [apply counter_value_inc|]. done.
Qed.

(** X14.  When the metadata's [feature_count] is not a number (a string,
    [null], a list, an object), no row length equals it: with a model
    loaded, every prediction request that passes the key check is answered
    500 and the model is never called. *)
Theorem non_numeric_feature_count_refuses_all env key req st m :
  verify_api_key env key = Returns tt ->
  model st = Some m ->
  is_number (expected_features st) = false ->
  status (fst (serve env (POST_predict key req) st)) = 500%Z ∧
  model_calls (snd (serve env (POST_predict key req) st)) = model_calls st.
Proof.
  intros Hkey Hm Hnum.
  assert (Hbad : invalid_inputs st req).
  { destruct (inputs req) as [|inp rows] eqn:Hrows; [by left|].
    right. rewrite Hrows. exists inp. split; [apply elem_of_cons; by left|].
    destruct (expected_features st); simpl in *; done. }
  rewrite (serve_pass env _ key) by done. simpl.
  destruct (predict_invalid req st m Hm Hbad) as [detail Hrun].
  by rewrite Hrun.
Qed.

(** X15.  With an integer [feature_count] [n] in the metadata and a model
    that answers the request, the handler of a prediction request that
    passes the key check returns the predictions exactly when the request
    has at least one row and every row has [n] values; when the framework
    can render those predictions, that is exactly when the request is
    answered 200. *)
Theorem integer_feature_count_acceptance env key req st m n preds out :
  verify_api_key env key = Returns tt ->
  model st = Some m ->
  expected_features st = PyInt n ->
  predict_method m (inputs req) = Returns preds ->
  tolist preds = Returns out ->
  (fst (route env (POST_predict key req) st)
     = Returns (JSON (PyDict (dict_of [("predictions", out)]))) <->
   inputs req ≠ [] ∧ Forall (fun inp => Z.of_nat (length inp) = n) (inputs req)) ∧
  (renders_json (PyDict (dict_of [("predictions", out)])) = true ->
   (status (fst (serve env (POST_predict key req) st)) = 200%Z <->
    inputs req ≠ [] ∧ Forall (fun inp => Z.of_nat (length inp) = n) (inputs req))).
Proof.
  intros Hkey Hm Hexp Hpred Hout.
  rewrite (serve_pass env _ key) by done.
  unfold route. cbn [dependency handler]. rewrite guarded_pass by done.
  rewrite <- rows_accepted_int, <- Hexp.
  destruct (inputs_refused_or_accepted st req) as [Hbad | [Hne Hacc]].
  - destruct (predict_invalid req st m Hm Hbad) as [detail Hrun].
    rewrite Hrun. cbn [fst].
    assert (Hno : ¬ (inputs req ≠ [] ∧
                     rows_accepted (expected_features st) (inputs req) = true)).
    { intros [Hne Hacc]. destruct Hbad as [Hnil | Hrow]; [contradiction|].
      apply (rows_accepted_false (expected_features st)) in Hrow. congruence. }
    split; [split; [discriminate | done]|].
    intros _. split; [discriminate | done].
  - rewrite (predict_accepted req st m preds out) by done. cbn [fst].
    split; [done|].
    intros Hok. unfold respond. cbn [body_renders]. by rewrite Hok.
Qed.


End PredictionCoverage.

(** * What each route may answer and may change *)

Section RouteCoverage.
Context `{PyRuntime}.

Lemma counter_value_inc_le {K : Type} `{Countable K} (k k' : K) (c : gmap K nat) :
  counter_value c k' <= counter_value (counter_inc k c) k'.
Proof.
  destruct (decide (k = k')) as [-> | Hne].
  - rewrite counter_value_inc. lia.
  - by rewrite counter_value_inc_ne.
Qed.

(** [load_model] leaves the request metrics and the call trace alone. *)
Lemma load_model_untouched env st :
  REQUEST_COUNT (snd (load_model env st)) = REQUEST_COUNT st ∧
  REQUEST_LATENCY (snd (load_model env st)) = REQUEST_LATENCY st ∧
  model_calls (snd (load_model env st)) = model_calls st.
Proof.
  destruct (disk env !! MODEL_PATH env) as [f|] eqn:Hf.
  - destruct (joblib_load f) as [obj|e] eqn:Hload.
    + by rewrite (load_model_loaded env st f obj).
    + by rewrite load_model_not_loaded by (right; eauto).
  - by rewrite load_model_not_loaded by (by left).
Qed.

(** The state [reload_model] leaves is the one of its load attempt, with
    the holder put back when it raises. *)
Lemma reload_model_state env st :
  snd (reload_model env st) = snd (load_model env (set_model None st)) ∨
  snd (reload_model env st) = set_model (model st) (snd (load_model env (set_model None st))).
Proof.
  destruct (reload_model_cases env st) as (o & st' & Hrun & _ & _ & _ & Hcases).
  destruct Hcases as [(b & -> & _ & f & Hf & Hload) | (detail & -> & _ & Hstate & _)].
  - left. destruct (model st') as [m'|] eqn:Hm'.
    + by rewrite (reload_model_loaded env st f m').
    + rewrite (reload_model_hollow env st f) in Hrun by done. discriminate.
  - right. by rewrite Hrun.
Qed.

(** The five ways [predict] ends, seen from the state it leaves. *)
Lemma predict_frame req st :
  model (snd (predict req st)) = model st ∧
  model_metadata (snd (predict req st)) = model_metadata st ∧
  MODEL_LOAD_TIME (snd (predict req st)) = MODEL_LOAD_TIME st ∧
  MODEL_VERSION (snd (predict req st)) = MODEL_VERSION st ∧
  (model_calls (snd (predict req st)) = model_calls st ∨
   (is_Some (model st) ∧ inputs req ≠ [] ∧
    rows_accepted (expected_features st) (inputs req) = true ∧
    model_calls (snd (predict req st)) = model_calls st ++ [inputs req])) ∧
  (∀ child, counter_value (REQUEST_COUNT st) child
            <= counter_value (REQUEST_COUNT (snd (predict req st))) child) ∧
  (∀ v, counter_value (REQUEST_LATENCY st) v
        <= counter_value (REQUEST_LATENCY (snd (predict req st))) v).
Proof.
  assert (Hstep : ∀ (K : Type) `{Countable K} (k1 k2 k : K) (c : gmap K nat),
            counter_value c k <= counter_value (counter_inc k1 (counter_inc k2 c)) k).
  { intros. etrans; apply counter_value_inc_le. }
  assert (Hcases :
            (∃ o, model st = None ∧ predict req st =
               (o, set_REQUEST_COUNT (counter_inc (error_child st) (REQUEST_COUNT st)) st)) ∨
            (∃ o, predict req st =
               (o, set_REQUEST_COUNT (counter_inc (error_child st) (REQUEST_COUNT st)) st)) ∨
            (is_Some (model st) ∧ inputs req ≠ [] ∧
             rows_accepted (expected_features st) (inputs req) = true ∧
             ∃ o rc lat,
               predict req st =
                 (o, set_REQUEST_COUNT rc
                       (set_REQUEST_LATENCY lat (log_model_call (inputs req) st))) ∧
               (∀ child, counter_value (REQUEST_COUNT st) child <= counter_value rc child) ∧
               (∀ v, counter_value (REQUEST_LATENCY st) v <= counter_value lat v))).
  { destruct (model st) as [m|] eqn:Hm.
    - destruct (inputs_refused_or_accepted st req) as [Hbad | [Hne Hacc]].
      + destruct (predict_invalid req st m Hm Hbad) as [detail Hrun].
        right. left. eauto.
      + right. right. split; [eauto|]. split; [done|]. split; [done|].
        destruct (predict_method m (inputs req)) as [preds|e] eqn:Hpred.
        * destruct (tolist preds) as [out|e] eqn:Hout.
          -- rewrite (predict_accepted req st m preds out) by done.
             eexists _, _, _. split; [reflexivity|].
             split; intros; apply counter_value_inc_le.
          -- rewrite (predict_tolist_raises req st m preds e) by done.
             eexists _, _, _. split; [reflexivity|].
             split; intros; [apply Hstep | apply counter_value_inc_le].
        * rewrite (predict_model_raises req st m e) by done.
          eexists _, (counter_inc (error_child st) (REQUEST_COUNT st)), (REQUEST_LATENCY st).
          split; [reflexivity|].
          split; intros; [apply counter_value_inc_le | done].
    - left. rewrite (predict_unloaded req st Hm). eauto. }
  destruct Hcases as [(o & _ & ->) | [(o & ->) | (Hm & Hne & Hacc & o & rc & lat & -> & Hrc & Hlat)]];
    simpl.
  - split_and!; try done; [by left | intros; apply counter_value_inc_le].
  - split_and!; try done; [by left | intros; apply counter_value_inc_le].
  - split_and!; try done. by right.
Qed.

Lemma health_pure env st : snd (health env st) = st.
Proof. destruct (health_status env st) as (d & Hrun & _). by rewrite Hrun. Qed.

(** What one request does to the state, whatever the key check says: the
    state of the handler's run, or the state it found. *)
Lemma serve_state env r st :
  snd (serve env r st) = snd (handler env r st) ∨ snd (serve env r st) = st.
Proof.
  destruct (dependency r) as [key|] eqn:Hdep.
  - destruct (verify_api_key_cases env key) as [Hkey | Hkey].
    + left. by rewrite (serve_pass env r key).
    + right. by rewrite (serve_reject env r key) by (done || congruence).
  - left. by rewrite serve_open.
Qed.

(** The model call made while serving one request, if any. *)
Lemma serve_model_calls env r st :
  model_calls (snd (serve env r st)) = model_calls st ∨
  ∃ key req, r = POST_predict key req ∧
             verify_api_key env key = Returns tt ∧
             is_Some (model st) ∧ inputs req ≠ [] ∧
             rows_accepted (expected_features st) (inputs req) = true ∧
             model_calls (snd (serve env r st)) = model_calls st ++ [inputs req].
Proof.
  destruct (dependency r) as [key|] eqn:Hdep.
  - destruct (verify_api_key_cases env key) as [Hkey | Hkey].
    + rewrite (serve_pass env r key) by done.
      destruct r as [|k|k req| |k]; cbn [handler dependency] in *; try discriminate.
      * left. by rewrite model_info_pure.
      * injection Hdep as ->.
        destruct (predict_frame req st)
          as (_ & _ & _ & _ & [Hsame | (Hm & Hne & Hacc & Hcall)] & _).
        -- by left.
        -- right. by exists key, req.
      * left. destruct (reload_model_state env st) as [-> | ->]; simpl;
          by destruct (load_model_untouched env (set_model None st)) as (_ & _ & ->).
    + left. by rewrite (serve_reject env r key) by (done || congruence).
  - rewrite serve_open by done.
    destruct r; cbn [handler dependency] in *; try discriminate; left.
    + by rewrite health_pure.
    + reflexivity.
Qed.


(** X11.  Serving one request calls the model exactly when the request
    is a [POST /predict] that passed the key check with a model loaded, at
    least one row, and every row of the expected length: then the model is
    called once, on the rows of the request, whatever it answers.  Any
    other request, and any refused one, leaves the trace of model calls as
    it was. *)
Theorem model_called_exactly_on_validated_rows env r st :
  (reaches_model env r st ->
   model_calls (snd (serve env r st)) = model_calls st ++ [request_rows r]) ∧
  (¬ reaches_model env r st ->
   model_calls (snd (serve env r st)) = model_calls st).
Proof.
  split.
  - intros (key & req & -> & Hkey & [m Hm] & Hne & Hacc).
    rewrite (serve_pass env _ key) by done. cbn [handler request_rows].
    destruct (predict_method m (inputs req)) as [preds|e] eqn:Hpred.
    + destruct (tolist preds) as [out|e] eqn:Hout.
      * by rewrite (predict_accepted req st m preds out).
      * by rewrite (predict_tolist_raises req st m preds e).
    + by rewrite (predict_model_raises req st m e).
  - intros Hnot.
    destruct (serve_model_calls env r st)
      as [Hsame | (key & req & Hr & Hkey & Hm & Hne & Hacc & _)]; [done|].
    destruct Hnot. by exists key, req.
Qed.

(** X12.  What a route may change.  [/health], [/model/info] and
    [/metrics] leave the whole state as it is.  Only [/model/reload]
    changes the holder, the metadata, the load-time gauge or the version
    gauge.  Only [/predict] changes the request counter, the latency
    histogram or the trace of model calls. *)
Theorem routes_change_only_their_own_state env r st :
  ((∀ key req, r ≠ POST_predict key req) -> (∀ key, r ≠ POST_model_reload key) ->
   snd (serve env r st) = st) ∧
  ((∀ key, r ≠ POST_model_reload key) ->
   model (snd (serve env r st)) = model st ∧
   model_metadata (snd (serve env r st)) = model_metadata st ∧
   MODEL_LOAD_TIME (snd (serve env r st)) = MODEL_LOAD_TIME st ∧
   MODEL_VERSION (snd (serve env r st)) = MODEL_VERSION st) ∧
  ((∀ key req, r ≠ POST_predict key req) ->
   REQUEST_COUNT (snd (serve env r st)) = REQUEST_COUNT st ∧
   REQUEST_LATENCY (snd (serve env r st)) = REQUEST_LATENCY st ∧
   model_calls (snd (serve env r st)) = model_calls st).
Proof.
  destruct (serve_state env r st) as [Hrun | Hrun]; rewrite Hrun;
    [|by repeat split].
  destruct r as [|key|key req| |key]; cbn [handler].
  - rewrite health_pure. by repeat split.
  - rewrite model_info_pure. by repeat split.
  - split; [intros Hnp; by destruct (Hnp key req)|].
    split; [|intros Hnp; by destruct (Hnp key req)].
    intros _. destruct (predict_frame req st) as (? & ? & ? & ? & _). done.
  - by repeat split.
  - split; [intros _ Hnr; by destruct (Hnr key)|].
    split; [intros Hnr; by destruct (Hnr key)|].
    intros _.
    destruct (load_model_untouched env (set_model None st)) as (Hrc & Hlat & Hcalls).
    destruct (reload_model_state env st) as [-> | ->]; simpl; by rewrite Hrc, Hlat, Hcalls.
Qed.

(** X13.  The request counter and the latency histogram only go up: no
    request lowers the value of any of their children. *)
Theorem request_metrics_never_decrease env r st :
  (∀ child, counter_value (REQUEST_COUNT st) child
            <= counter_value (REQUEST_COUNT (snd (serve env r st))) child) ∧
  (∀ v, counter_value (REQUEST_LATENCY st) v
        <= counter_value (REQUEST_LATENCY (snd (serve env r st))) v).
Proof.
  destruct (serve_state env r st) as [Hrun | Hrun]; rewrite Hrun; [|done].
  destruct r as [|key|key req| |key]; cbn [handler].
  - by rewrite health_pure.
  - by rewrite model_info_pure.
  - destruct (predict_frame req st) as (_ & _ & _ & _ & _ & Hrc & Hlat). done.
  - done.
  - destruct (load_model_untouched env (set_model None st)) as (Hrc & Hlat & _).
    destruct (reload_model_state env st) as [-> | ->]; simpl; by rewrite Hrc, Hlat.
Qed.

(** X16.  When pydantic accepts the six values [model_info] hands to
    [ModelInfo] (the metadata's [model_name], [version], [algorithm] and
    [trained_at], or [None] for an absent key; its [r2_score] and
    [feature_count], or [0.0] and [0] for an absent key), the handler of a
    request that passes the key check returns the typed object of the
    validated values and leaves the state alone; [r2_score] is [0.0] when
    the key is absent and [features] is [0] when [feature_count] is. *)
Theorem model_info_returns_typed_object env key st n v a t r f :
  verify_api_key env key = Returns tt ->
  validate_str (default PyNone (model_metadata st !! "model_name")) = Some n ->
  validate_str (default PyNone (model_metadata st !! "version")) = Some v ->
  validate_str (default PyNone (model_metadata st !! "algorithm")) = Some a ->
  validate_float (default (PyFloat 0) (model_metadata st !! "r2_score")) = Some r ->
  validate_str (default PyNone (model_metadata st !! "trained_at")) = Some t ->
  validate_int (default (PyInt 0) (model_metadata st !! "feature_count")) = Some f ->
  serve env (GET_model_info key) st
    = (respond (Returns (Typed {| name := n; version := v; algorithm := a; r2_score := r;
                                  trained_at := t; features := f |})), st) ∧
  (model_metadata st !! "r2_score" = None -> r = 0%float) ∧
  (model_metadata st !! "feature_count" = None -> f = 0%Z).
Proof.
  intros Hkey Hn Hv Ha Hr Ht Hf.
  assert (Hne : dict_truthy (model_metadata st) = true).
  { apply dict_truthy_nonempty. intros Hempty. rewrite Hempty in Hn.
    rewrite lookup_empty in Hn. simpl in Hn. rewrite validate_str_None in Hn.
    discriminate. }
  split; [|split].
  - rewrite (serve_pass env _ key) by done. cbn [handler].
    unfold model_info. py_unfold. rewrite Hne. cbn [negb].
    unfold ModelInfo_new, dict_get. by rewrite Hn, Hv, Ha, Hr, Ht, Hf.
  - intros Hno. rewrite Hno in Hr. simpl in Hr.
    rewrite validate_float_PyFloat in Hr. congruence.
  - intros Hno. rewrite Hno in Hf. simpl in Hf.
    rewrite validate_int_PyInt in Hf. congruence.
Qed.

(** X17.  A [/model/info] request that passes the key check is answered
    404 exactly when the metadata is empty, whether or not a model is
    loaded. *)
Theorem model_info_404_iff_no_metadata env key st :
  verify_api_key env key = Returns tt ->
  status (fst (serve env (GET_model_info key) st)) = 404%Z <-> model_metadata st = ∅.
Proof.
  intros Hkey. rewrite (serve_pass env _ key) by done. cbn [handler]. split.
  - unfold model_info. py_unfold.
    destruct (dict_truthy (model_metadata st)) eqn:Hmd; cbn [negb fst].
    + destruct (ModelInfo_new _ _ _ _ _ _) as [info|e] eqn:Hnew; cbn [fst].
      * destruct (respond_returns (Typed info)) as [[_ ->] | [_ ->]]; discriminate.
      * unfold ModelInfo_new in Hnew.
        repeat match type of Hnew with
               | match ?x with _ => _ end = _ => destruct x
               end; inversion Hnew; discriminate.
    + intros _. by apply dict_truthy_empty.
  - intros Hempty. by rewrite (model_info_unavailable st Hempty).
Qed.

(** X19.  Over any sequence of requests served one after the other, the
    model is never handed an empty batch: if no call in the trace was
    made on an empty list, none is after the sequence. *)
Theorem model_never_called_on_empty_batch reqs st :
  Forall (fun rows => rows ≠ []) (model_calls st) ->
  Forall (fun rows => rows ≠ []) (model_calls (serve_all reqs st)).
Proof.
  revert st. induction reqs as [|[env r] reqs IH]; intros st Hinv; simpl; [done|].
  apply IH.
  destruct (serve_model_calls env r st)
    as [-> | (key & req & _ & _ & _ & Hne & _ & ->)]; [done|].
  apply Forall_app. split; [done|]. by apply Forall_singleton.
Qed.

(** X20.  When the service starts with a metadata file holding a JSON
    object and a pickle holding a model, the startup hook leaves that
    model in the holder and that object in the metadata, with the clock in
    the load-time gauge and an empty request counter; a prediction request
    accepted against the file's feature count calls that model and is
    answered with its predictions. *)
Theorem startup_serves_published_model env fmeta d fmodel m :
  disk env !! MODEL_VERSION_FILE env = Some fmeta ->
  json_load fmeta = Returns (PyDict d) ->
  disk env !! MODEL_PATH env = Some fmodel ->
  joblib_load fmodel = Returns (Some m) ->
  model (startup env) = Some m ∧
  model_metadata (startup env) = d ∧
  MODEL_LOAD_TIME (startup env) = Some (now env) ∧
  REQUEST_COUNT (startup env) = ∅ ∧
  ∀ key req preds out,
    verify_api_key env key = Returns tt ->
    inputs req ≠ [] ->
    rows_accepted (default (PyInt 8) (d !! "feature_count")) (inputs req) = true ->
    predict_method m (inputs req) = Returns preds ->
    tolist preds = Returns out ->
    fst (serve env (POST_predict key req) (startup env))
      = respond (Returns (JSON (PyDict (dict_of [("predictions", out)])))) ∧
    model_calls (snd (serve env (POST_predict key req) (startup env))) = [inputs req].
Proof.
  intros Hfmeta Hd Hfmodel Hm.
  assert (Hmd : metadata_after_load env initial_state = d).
  { unfold metadata_after_load. by rewrite (load_model_metadata_parsed env _ fmeta d). }
  unfold startup. rewrite (load_model_loaded env _ fmodel (Some m)) by done.
  rewrite Hmd. cbn [fst snd]. repeat split; try reflexivity.
  - rewrite (serve_pass env _ key) by done. cbn [handler].
    by rewrite (predict_accepted req _ m preds out).
  - rewrite (serve_pass env _ key) by done. cbn [handler].
    by rewrite (predict_accepted req _ m preds out).
Qed.

End RouteCoverage.

(** * Reloading twice *)

Section ReloadTwice.
Context `{PyRuntime}.

(** The metadata loader gives the same result on the state it left. *)
Lemma metadata_after_load_idem env st st' :
  model_metadata st' = metadata_after_load env st ->
  metadata_after_load env st' = metadata_after_load env st.
Proof.
  unfold metadata_after_load, load_model_metadata. py_unfold.
  destruct (disk env !! MODEL_VERSION_FILE env) as [f|]; [|done].
  destruct (json_load f) as [v|e]; [|done].
  destruct v; done.
Qed.

(** [reload_model] with the pickle missing or unreadable. *)
Lemma reload_model_failed env st :
  model_file_unloadable env ->
  reload_model env st =
    (Raises (HTTPException 500 (str_of_exn (HTTPException 500 "Failed to reload model"))),
     set_model (model st) (snd (load_model env (set_model None st)))).
Proof.
  intros Hbad. unfold reload_model. py_unfold.
  by rewrite load_model_not_loaded.
Qed.

(** Closes the goal of [reload_twice] once both runs are rewritten to the
    states of their load attempts. *)
Ltac same_load env st :=
  simpl; change (metadata_after_load (at_time _ env)) with (metadata_after_load env);
  rewrite !(metadata_after_load_idem env (set_model None st)) by done;
  simpl; split_and!; try done;
  unfold version_child, name_label, version_label; simpl;
  by rewrite insert_insert_eq.

(** X21.  Reloading again with the same configuration and the same files
    on disk repeats the first reload: the same answer, and the same model,
    metadata and version gauge as the first reload left (only the
    load-time gauge may move with the clock). *)
Theorem reload_twice env key st t :
  fst (serve (at_time t env) (POST_model_reload key) (snd (serve env (POST_model_reload key) st)))
    = fst (serve env (POST_model_reload key) st) ∧
  model (snd (serve (at_time t env) (POST_model_reload key)
                (snd (serve env (POST_model_reload key) st))))
    = model (snd (serve env (POST_model_reload key) st)) ∧
  model_metadata (snd (serve (at_time t env) (POST_model_reload key)
                         (snd (serve env (POST_model_reload key) st))))
    = model_metadata (snd (serve env (POST_model_reload key) st)) ∧
  MODEL_VERSION (snd (serve (at_time t env) (POST_model_reload key)
                        (snd (serve env (POST_model_reload key) st))))
    = MODEL_VERSION (snd (serve env (POST_model_reload key) st)).
Proof.
  destruct (verify_api_key_cases env key) as [Hkey | Hkey].
  - assert (Hkey' : verify_api_key (at_time t env) key = Returns tt) by exact Hkey.
    rewrite (serve_pass (at_time t env) _ key), (serve_pass env _ key) by done.
    cbn [handler].
    destruct (disk env !! MODEL_PATH env) as [f|] eqn:Hf.
    + assert (Hf' : disk (at_time t env) !! MODEL_PATH (at_time t env) = Some f) by exact Hf.
      destruct (joblib_load f) as [[m'|]|e] eqn:Hload.
      * rewrite (reload_model_loaded env st f m') by done.
        rewrite (reload_model_loaded (at_time t env) _ f m') by done.
        rewrite (load_model_loaded env _ f (Some m')) by done.
        rewrite (load_model_loaded (at_time t env) _ f (Some m')) by done.
        same_load env st.
      * rewrite (reload_model_hollow env st f) by done.
        rewrite (reload_model_hollow (at_time t env) _ f) by done.
        rewrite (load_model_loaded env _ f None) by done.
        rewrite (load_model_loaded (at_time t env) _ f None) by done.
        same_load env st.
      * assert (Hbad : model_file_unloadable env) by (right; eauto).
        assert (Hbad' : model_file_unloadable (at_time t env)) by exact Hbad.
        rewrite (reload_model_failed env st) by done.
        rewrite (reload_model_failed (at_time t env)) by done.
        rewrite (load_model_not_loaded env) by done.
        rewrite (load_model_not_loaded (at_time t env)) by done.
        same_load env st.
    + assert (Hbad : model_file_unloadable env) by (by left).
      assert (Hbad' : model_file_unloadable (at_time t env)) by exact Hbad.
      rewrite (reload_model_failed env st) by done.
      rewrite (reload_model_failed (at_time t env)) by done.
      rewrite (load_model_not_loaded env) by done.
      rewrite (load_model_not_loaded (at_time t env)) by done.
      same_load env st.
  - assert (Hkey' : verify_api_key (at_time t env) key ≠ Returns tt).
    { change (verify_api_key env key ≠ Returns tt). congruence. }
    rewrite (serve_reject env _ key) by (done || congruence).
    by rewrite (serve_reject (at_time t env) _ key) by done.
Qed.

End ReloadTwice.

(** * The further properties on concrete runs *)

(** X1 at the first start of a published model. *)
Lemma load_model_success_effects_witness :
  model (snd (load_model first_release initial_state)) = Some (constant_model 1.5) ∧
  MODEL_LOAD_TIME (snd (load_model first_release initial_state)) = Some 1000%Z ∧
  MODEL_VERSION (snd (load_model first_release initial_state))
    !! ("california-housing", "1.0") = Some 1%Z.
Proof.
  destruct (load_model_success_effects first_release initial_state _
              (Some (constant_model 1.5)) eq_refl eq_refl)
    as (_ & Hheld & _ & Htime & Hgauge & _).
  split; [exact Hheld|]. split; [exact Htime | exact Hgauge].
Defined.


(** X3: after version 1.0 and then version 2.0 have been loaded, the
    gauge children of both read 1. *)
Lemma load_model_keeps_other_gauge_children_witness :
  MODEL_VERSION (snd (load_model second_release (startup first_release)))
    !! ("california-housing", "1.0") = Some 1%Z ∧
  MODEL_VERSION (snd (load_model second_release (startup first_release)))
    !! ("california-housing", "2.0") = Some 1%Z.
Proof.
  split; [|reflexivity].
  rewrite (load_model_keeps_other_gauge_children second_release (startup first_release)
             ("california-housing", "1.0")).
  - reflexivity.
  - intros Heq. apply (f_equal snd) in Heq. discriminate.
Defined.

(** X4 with nothing on disk. *)
Lemma startup_without_model_is_degraded_witness :
  model (startup bare_env) = None ∧
  fst (serve bare_env (POST_predict None {| inputs := [row8] |}) (startup bare_env))
    = error_response 503 "Model not loaded".
Proof.
  destruct (startup_without_model_is_degraded bare_env) as (Hempty & _ & Hrefused).
  - left. reflexivity.
  - split; [exact Hempty|]. exact (Hrefused None {| inputs := [row8] |} eq_refl).
Defined.

(** X5: reloading to the second release swaps in its model, which answers
    2.5 on a row of nine features. *)
Lemma reload_success_swaps_model_witness :
  status (fst (serve second_release (POST_model_reload None) serving_state)) = 200%Z ∧
  model (snd (serve second_release (POST_model_reload None) serving_state))
    = Some (constant_model 2.5) ∧
  fst (serve second_release (POST_predict None {| inputs := [row9] |})
         (snd (serve second_release (POST_model_reload None) serving_state)))
    = {| status := 200;
         body := JSON (PyDict (dict_of [("predictions", PyList [PyFloat 2.5])])) |}.
Proof.
  destruct (reload_success_swaps_model second_release None serving_state _
              (constant_model 2.5) eq_refl eq_refl eq_refl)
    as (Hanswer & Hheld & _ & _ & _ & Hserves).
  split; [by rewrite Hanswer|]. split; [exact Hheld|].
  refine (proj1 (Hserves second_release None {| inputs := [row9] |}
                   {| tolist := Returns (PyList [PyFloat 2.5]) |} (PyList [PyFloat 2.5])
                   eq_refl _ eq_refl eq_refl eq_refl)).
  discriminate.
Defined.

(** X6: a pickle holding [None]. *)
Lemma reload_of_none_pickle_fails_witness :
  status (fst (serve hollow_release (POST_model_reload None) serving_state)) = 500%Z ∧
  model (snd (serve hollow_release (POST_model_reload None) serving_state))
    = Some (constant_model 1.5) ∧
  MODEL_LOAD_TIME (snd (serve hollow_release (POST_model_reload None) serving_state))
    = Some 3000%Z.
Proof.
  destruct (reload_of_none_pickle_fails hollow_release None serving_state _
              eq_refl eq_refl eq_refl) as (H500 & Hheld & Htime & _).
  split; [exact H500|]. split; [exact Hheld | exact Htime].
Defined.

(** X7: one row of eight features, answered by a model that returns 1.5
    and by one that returns NaN. *)
Lemma predict_success_effects_witness :
  fst (serve bare_env (POST_predict None {| inputs := [row8] |}) serving_state)
    = {| status := 200;
         body := JSON (PyDict (dict_of [("predictions", PyList [PyFloat 1.5])])) |} ∧
  model_calls (snd (serve bare_env (POST_predict None {| inputs := [row8] |}) serving_state))
    = [[row8]] ∧
  counter_value
    (REQUEST_COUNT (snd (serve bare_env (POST_predict None {| inputs := [row8] |})
                           serving_state)))
    ("success", "1.0") = 1 ∧
  fst (serve bare_env (POST_predict None {| inputs := [row8] |})
         (set_model (Some nan_model) serving_state))
    = internal_server_error ∧
  counter_value
    (REQUEST_COUNT (snd (serve bare_env (POST_predict None {| inputs := [row8] |})
                           (set_model (Some nan_model) serving_state))))
    ("success", "1.0") = 1.
Proof.
  assert (Hne : inputs {| inputs := [row8] |} ≠ []) by discriminate.
  destruct (predict_success_effects bare_env None {| inputs := [row8] |} serving_state
              (constant_model 1.5) {| tolist := Returns (PyList [PyFloat 1.5]) |}
              (PyList [PyFloat 1.5]) eq_refl eq_refl Hne eq_refl eq_refl eq_refl)
    as (_ & Hanswer & _ & Hcalls & Hsuccess & _).
  destruct (predict_success_effects bare_env None {| inputs := [row8] |}
              (set_model (Some nan_model) serving_state)
              nan_model {| tolist := Returns (PyList [PyFloat nan]) |}
              (PyList [PyFloat nan]) eq_refl eq_refl Hne eq_refl eq_refl eq_refl)
    as (_ & _ & Hnan & _ & Hcounted & _).
  split; [exact (Hanswer eq_refl)|]. split; [exact Hcalls|]. split; [exact Hsuccess|].
  split; [exact (Hnan eq_refl) | exact Hcounted].
Defined.

(** X8: a model whose [predict] raises. *)
Lemma predict_model_error_effects_witness :
  status (fst (serve bare_env (POST_predict None {| inputs := [row8] |})
                 (set_model (Some failing_model) serving_state))) = 500%Z ∧
  counter_value
    (REQUEST_COUNT (snd (serve bare_env (POST_predict None {| inputs := [row8] |})
                           (set_model (Some failing_model) serving_state))))
    ("success", "1.0") = 0.
Proof.
  assert (Hne : inputs {| inputs := [row8] |} ≠ []) by discriminate.
  destruct (predict_model_error_effects bare_env None {| inputs := [row8] |}
              (set_model (Some failing_model) serving_state) failing_model
              (PyError "ValueError" "X has 8 features")
              eq_refl eq_refl Hne eq_refl eq_refl)
    as (Hanswer & _ & _ & Hothers & _).
  split; [by rewrite Hanswer|].
  rewrite (Hothers ("success", "1.0")); [reflexivity|discriminate].
Defined.

(** X9: a model whose answer has no [tolist]: one request, one success
    and one error counted. *)
Lemma predict_tolist_error_counted_twice_witness :
  status (fst (serve bare_env (POST_predict None {| inputs := [row8] |})
                 (set_model (Some listless_model) serving_state))) = 500%Z ∧
  counter_value
    (REQUEST_COUNT (snd (serve bare_env (POST_predict None {| inputs := [row8] |})
                           (set_model (Some listless_model) serving_state))))
    ("success", "1.0") = 1 ∧
  counter_value
    (REQUEST_COUNT (snd (serve bare_env (POST_predict None {| inputs := [row8] |})
                           (set_model (Some listless_model) serving_state))))
    ("error", "1.0") = 1.
Proof.
  assert (Hne : inputs {| inputs := [row8] |} ≠ []) by discriminate.
  destruct (predict_tolist_error_counted_twice bare_env None {| inputs := [row8] |}
              (set_model (Some listless_model) serving_state) listless_model
              {| tolist := Raises (PyError "AttributeError" "no attribute 'tolist'") |}
              (PyError "AttributeError" "no attribute 'tolist'")
              eq_refl eq_refl Hne eq_refl eq_refl eq_refl)
    as (Hanswer & Hsuccess & Herror & _).
  split; [by rewrite Hanswer|]. split; [exact Hsuccess | exact Herror].
Defined.

(** X14: [feature_count] written as the string ["8"] refuses a row of
    eight features. *)
Lemma non_numeric_feature_count_refuses_all_witness :
  expected_features (set_model_metadata quoted_metadata serving_state) = PyStr "8" ∧
  status (fst (serve bare_env (POST_predict None {| inputs := [row8] |})
                 (set_model_metadata quoted_metadata serving_state))) = 500%Z ∧
  model_calls (snd (serve bare_env (POST_predict None {| inputs := [row8] |})
                      (set_model_metadata quoted_metadata serving_state))) = [].
Proof.
  split; [reflexivity|].
  exact (non_numeric_feature_count_refuses_all bare_env None {| inputs := [row8] |}
           (set_model_metadata quoted_metadata serving_state) (constant_model 1.5)
           eq_refl eq_refl eq_refl).
Defined.

(** X15: two rows of eight features are accepted. *)
Lemma integer_feature_count_acceptance_witness :
  status (fst (serve bare_env (POST_predict None {| inputs := [row8; row8] |})
                 serving_state)) = 200%Z.
Proof.
  assert (Hok : renders_json
                  (PyDict (dict_of [("predictions", PyList [PyFloat 1.5; PyFloat 1.5])]))
                = true) by reflexivity.
  apply (proj2 (integer_feature_count_acceptance bare_env None
                  {| inputs := [row8; row8] |} serving_state (constant_model 1.5) 8
                  {| tolist := Returns (PyList [PyFloat 1.5; PyFloat 1.5]) |}
                  (PyList [PyFloat 1.5; PyFloat 1.5])
                  eq_refl eq_refl eq_refl eq_refl eq_refl) Hok).
  split; [discriminate|]. repeat constructor.
Defined.


(** X16: metadata with the four strings and no numeric field. *)
Lemma model_info_returns_typed_object_witness :
  serve bare_env (GET_model_info None) (set_model_metadata described_metadata initial_state)
    = ({| status := 200;
          body := Typed {| name := "california-housing"; version := "1.0";
                           algorithm := "RandomForest"; r2_score := 0;
                           trained_at := "2024-01-01"; features := 0 |} |},
       set_model_metadata described_metadata initial_state).
Proof.
  exact (proj1 (model_info_returns_typed_object bare_env None
                  (set_model_metadata described_metadata initial_state)
                  "california-housing" "1.0" "RandomForest" "2024-01-01" 0%float 0%Z
                  eq_refl eq_refl eq_refl eq_refl eq_refl eq_refl eq_refl)).
Defined.

(** X17: no metadata, with and without a model in the holder. *)
Lemma model_info_404_iff_no_metadata_witness :
  status (fst (serve bare_env (GET_model_info None) initial_state)) = 404%Z ∧
  status (fst (serve bare_env (GET_model_info None)
                 (set_model (Some (constant_model 1.5)) initial_state))) = 404%Z.
Proof.
  split.
  - by apply (model_info_404_iff_no_metadata bare_env None initial_state eq_refl).
  - by apply (model_info_404_iff_no_metadata bare_env None
                (set_model (Some (constant_model 1.5)) initial_state) eq_refl).
Defined.

(** X19: an empty request, a refused reload and a good request in a row:
    the only call the model sees is the good one. *)
Lemma model_never_called_on_empty_batch_witness :
  Forall (fun rows => rows ≠ [])
    (model_calls (serve_all [(bare_env, POST_predict None {| inputs := [] |});
                             (secret_env, POST_model_reload None);
                             (bare_env, POST_predict None {| inputs := [row8] |})]
                            serving_state)) ∧
  model_calls (serve_all [(bare_env, POST_predict None {| inputs := [] |});
                          (secret_env, POST_model_reload None);
                          (bare_env, POST_predict None {| inputs := [row8] |})]
                         serving_state) = [[row8]].
Proof.
  split; [|reflexivity].
  apply model_never_called_on_empty_batch. constructor.
Defined.

(** X20: the first release, started and asked for one prediction. *)
Lemma startup_serves_published_model_witness :
  model (startup first_release) = Some (constant_model 1.5) ∧
  model_metadata (startup first_release) = housing_metadata ∧
  fst (serve first_release (POST_predict None {| inputs := [row8] |}) (startup first_release))
    = {| status := 200;
         body := JSON (PyDict (dict_of [("predictions", PyList [PyFloat 1.5])])) |}.
Proof.
  destruct (startup_serves_published_model first_release _ housing_metadata _
              (constant_model 1.5) eq_refl eq_refl eq_refl eq_refl)
    as (Hheld & Hmd & _ & _ & Hserves).
  split; [exact Hheld|]. split; [exact Hmd|].
  refine (proj1 (Hserves None {| inputs := [row8] |}
                   {| tolist := Returns (PyList [PyFloat 1.5]) |} (PyList [PyFloat 1.5])
                   eq_refl _ eq_refl eq_refl eq_refl)).
  discriminate.
Defined.
